(** * GPA calculator: a shallow embedding of [script.js]

    The development follows the three layers of the script: the data layer
    ([GPADataLayer]), the processing layer ([GPAProcessor]) and the one
    handler of the user-interface layer that inserts courses
    ([GPAUI.addCourseHandler]).  The ECMAScript built-ins the script calls
    ([trim], [parseFloat], [isNaN], [toFixed], [splice], the JSON round
    trip) are embedded first, in module [JS].

    JavaScript numbers are IEEE 754 binary64 values: they are Rocq's
    primitive floats, whose operations are specified by [SpecFloat]. *)

From Stdlib Require Import ZArith List String Ascii Bool Lia Permutation.
From Stdlib Require Import Floats DecimalString DecimalPos DecimalN.
Import ListNotations.

#[local] Set Warnings "-inexact-float".
#[local] Open Scope string_scope.
#[local] Open Scope Z_scope.

(* ===================================================================== *)
(** ** ECMAScript built-ins used by the script *)
(* ===================================================================== *)

Module JS.

(** A string is a sequence of code units; the model covers the code units
    below 256 (one [ascii] each). *)

(** WhiteSpace and LineTerminator code units below 256: TAB, LF, VT, FF,
    CR, SP and NBSP. *)
Definition isWhiteSpace (c : ascii) : bool :=
  existsb (N.eqb (N_of_ascii c)) [9; 10; 11; 12; 13; 32; 160]%N.

Fixpoint trimStart (s : string) : string :=
  match s with
  | EmptyString => EmptyString
  | String c rest => if isWhiteSpace c then trimStart rest else s
  end.

Fixpoint trimEnd (s : string) : string :=
  match s with
  | EmptyString => EmptyString
  | String c rest =>
      match trimEnd rest with
      | EmptyString => if isWhiteSpace c then EmptyString else String c EmptyString
      | kept => String c kept
      end
  end.

(** [String.prototype.trim] *)
Definition trim (s : string) : string := trimEnd (trimStart s).

(** [ToBoolean] on a string: only the empty string is falsy. *)
Definition truthy (s : string) : bool :=
  match s with EmptyString => false | _ => true end.

(** *** Numbers *)

Definition NaN : float := nan.
Definition Infinity : float := infinity.

(** The values a [credits] property holds in this program: a number, or
    [null] once a non-finite number went through JSON. *)
Inductive number_or_null :=
| Num (x : float)
| Null.

(** The values of a field of the aggregate result: a number (the literal
    [0] of the empty case) or the string produced by [toFixed]. *)
Inductive number_or_string :=
| NumberValue (x : float)
| StringValue (s : string).

(** [ToNumber]: [null] converts to [+0]. *)
Definition ToNumber (v : number_or_null) : float :=
  match v with
  | Num x => x
  | Null => 0%float
  end.

(** The global [isNaN(v)]: [ToNumber] first. *)
Definition isNaN (v : number_or_null) : bool := is_nan (ToNumber v).

(** [v <= 0] *)
Definition le_zero (v : number_or_null) : bool := (ToNumber v <=? 0)%float.

(** [x > 0] *)
Definition gt_zero (x : float) : bool := (0 <? x)%float.

(** *** [parseFloat] on a string

    The longest prefix of the left-trimmed input that is a
    StrDecimalLiteral is converted; without such a prefix the result is
    NaN. *)

Definition digit_of (c : ascii) : option Z :=
  let n := Z.of_N (N_of_ascii c) in
  if (48 <=? n) && (n <=? 57) then Some (n - 48) else None.

(** DecimalDigits: the digits at the front of [s], and what follows. *)
Fixpoint takeDigits (s : string) : list Z * string :=
  match s with
  | EmptyString => ([], EmptyString)
  | String c rest =>
      match digit_of c with
      | Some d => let '(ds, after) := takeDigits rest in (d :: ds, after)
      | None => ([], s)
      end
  end.

Definition digitsValue (ds : list Z) : Z :=
  fold_left (fun acc d => 10 * acc + d) ds 0.

(** The value of the ExponentPart at the front of [s]; [0] when [s] does not
    start with a complete one (the literal then ends before it). *)
Definition exponentPart (s : string) : Z :=
  match s with
  | String c rest =>
      if (Ascii.eqb c "e" || Ascii.eqb c "E")%bool then
        let '(sign, digits) :=
          match rest with
          | String "+" r => (1, r)
          | String "-" r => (-1, r)
          | _ => (1, rest)
          end in
        match takeDigits digits with
        | ([], _) => 0
        | (ds, _) => sign * digitsValue ds
        end
      else 0
  | EmptyString => 0
  end.

(** StrUnsignedDecimalLiteral: [Infinity], or the decimal [m * 10^e]. *)
Inductive literal :=
| LitInfinity
| LitDecimal (m : Z) (e : Z).

Definition unsignedLiteral (s : string) : option literal :=
  if String.prefix "Infinity" s then Some LitInfinity
  else
    let '(ip, after) := takeDigits s in
    match after with
    | String "." rest =>
        let '(fp, after') := takeDigits rest in
        match ip, fp with
        | [], [] => None
        | _, _ =>
            Some (LitDecimal (digitsValue (ip ++ fp)%list)
                             (exponentPart after' - Z.of_nat (List.length fp)))
        end
    | _ =>
        match ip with
        | [] => None
        | _ => Some (LitDecimal (digitsValue ip) (exponentPart after))
        end
    end.

(** The binary64 value nearest to [(-1)^neg * m * 10^e], ties to even. *)
Definition decimalToNumber (neg : bool) (m e : Z) : spec_float :=
  match m with
  | Zpos _ =>
      if 0 <=? e then binary_normalize prec emax (cond_Zopp neg (m * 10 ^ e)) 0 neg
      else
        let '(q, eq, loc) := SFdiv_core_binary prec emax m 0 (10 ^ (- e)) 0 in
        binary_round_aux prec emax neg q eq loc
  | _ => S754_zero neg
  end.

Definition parseFloat_string (s : string) : float :=
  let t := trimStart s in
  let '(neg, body) :=
    match t with
    | String "+" r => (false, r)
    | String "-" r => (true, r)
    | _ => (false, t)
    end in
  match unsignedLiteral body with
  | None => NaN
  | Some LitInfinity => if neg then neg_infinity else Infinity
  | Some (LitDecimal m e) => SF2Prim (decimalToNumber neg m e)
  end.

(** [parseFloat] on a [credits] value.  The argument goes through
    [ToString] first: [null] becomes the text of the word null, which has no
    numeric prefix; a number is printed with the shortest digits that read
    back as the same number, except that [-0] prints as [0]. *)
Definition parseFloat (v : number_or_null) : float :=
  match v with
  | Null => NaN
  | Num x =>
      match Prim2SF x with
      | S754_zero _ => 0%float
      | _ => x
      end
  end.

(** *** [Number.prototype.toFixed] *)

(** The decimal digits of a non-negative integer. *)
Definition decimalDigits (n : Z) : string :=
  NilEmpty.string_of_uint (N.to_uint (Z.to_N n)).

Fixpoint zeros (k : nat) : string :=
  match k with
  | O => EmptyString
  | S k' => String "0" (zeros k')
  end.

(** Steps 10.b to 10.d of [toFixed]: the digits of [n], padded on the left
    to [f + 1] digits, with a point before the last [f] of them. *)
Definition fixedDigits (n : Z) (f : nat) : string :=
  let m := decimalDigits n in
  match f with
  | O => m
  | _ =>
      let k := String.length m in
      let m := if (k <=? f)%nat then zeros (f + 1 - k) ++ m else m in
      let k := String.length m in
      substring 0 (k - f) m ++ "." ++ substring (k - f) f m
  end.

(** The integer [n] for which [n / 10^f] is nearest to [m * 2^e], the larger
    one when two are as near. *)
Definition nearestScaled (m : positive) (e : Z) (f : nat) : Z :=
  let num := Zpos m * 10 ^ Z.of_nat f in
  if 0 <=? e then num * 2 ^ e
  else (2 * num + 2 ^ (- e)) / (2 * 2 ^ (- e)).

(** [10^21 <= m * 2^e] *)
Definition atLeast1e21 (m : positive) (e : Z) : bool :=
  if 0 <=? e then 10 ^ 21 <=? Zpos m * 2 ^ e
  else 10 ^ 21 * 2 ^ (- e) <=? Zpos m.

Section ToFixed.

(** [Number::toString] on a finite number of magnitude [10^21] or more:
    the digit choice is the platform's, so it stays a parameter. *)
Variable toString_large : float -> string.

Definition toFixed (x : float) (fractionDigits : nat) : string :=
  match Prim2SF x with
  | S754_nan => "NaN"
  | S754_infinity false => "Infinity"
  | S754_infinity true => "-Infinity"
  | S754_zero _ => fixedDigits 0 fractionDigits
  | S754_finite neg m e =>
      (if neg then "-" else "") ++
      (if atLeast1e21 m e then toString_large (abs x)
       else fixedDigits (nearestScaled m e fractionDigits) fractionDigits)
  end.

End ToFixed.

(** *** [Array.prototype.splice(start, 1)]

    [start] is an integer; a negative one counts from the end, and the
    position is clamped to [0 .. length]. *)
Definition actualStart {A} (start : Z) (l : list A) : nat :=
  let len := Z.of_nat (List.length l) in
  Z.to_nat (if start <? 0 then Z.max (len + start) 0 else Z.min start len).

Definition splice1 {A} (start : Z) (l : list A) : list A :=
  let from := actualStart start l in
  let deleteCount := Nat.min 1 (List.length l - from) in
  (firstn from l ++ skipn (from + deleteCount) l)%list.

(** *** [String.prototype.replace] with a global one-character pattern

    [s.replace(/c/g, by)], for a replacement text without dollar signs:
    every occurrence of the code unit [c] becomes [by]. *)
Fixpoint replaceAll (c : ascii) (by_ : string) (s : string) : string :=
  match s with
  | EmptyString => EmptyString
  | String a rest =>
      if Ascii.eqb a c then by_ ++ replaceAll c by_ rest
      else String a (replaceAll c by_ rest)
  end.

(** The code unit of the quotation mark. *)
Definition quotationMark : ascii := ascii_of_nat 34.

(** *** [ToNumber] on a string

    The whole string, without the white space around it, has to be a
    numeric literal: nothing gives [+0], a decimal literal or a binary,
    octal or hexadecimal integer gives its value, anything else NaN. *)

(** What follows the ExponentPart at the front of [s]; [s] itself when it
    does not start with a complete one. *)
Definition afterExponentPart (s : string) : string :=
  match s with
  | String c rest =>
      if (Ascii.eqb c "e" || Ascii.eqb c "E")%bool then
        let digits :=
          match rest with
          | String "+" r => r
          | String "-" r => r
          | _ => rest
          end in
        match takeDigits digits with
        | ([], _) => s
        | (_, after) => after
        end
      else s
  | EmptyString => s
  end.

(** What follows the longest StrUnsignedDecimalLiteral at the front of [s]. *)
Definition afterUnsignedLiteral (s : string) : string :=
  if String.prefix "Infinity" s then substring 8 (String.length s - 8) s
  else
    let '(ip, after) := takeDigits s in
    match after with
    | String "." rest =>
        let '(fp, after') := takeDigits rest in
        match ip, fp with
        | [], [] => s
        | _, _ => afterExponentPart after'
        end
    | _ =>
        match ip with
        | [] => s
        | _ => afterExponentPart after
        end
    end.

Definition digit_in_base (base : Z) (c : ascii) : option Z :=
  let n := Z.of_N (N_of_ascii c) in
  let v :=
    if (48 <=? n) && (n <=? 57) then n - 48
    else if (97 <=? n) && (n <=? 102) then n - 87
    else if (65 <=? n) && (n <=? 70) then n - 55
    else base in
  if v <? base then Some v else None.

(** The value of [s] read as digits of the base, when all of it is. *)
Fixpoint digitsInBase (base : Z) (acc : Z) (s : string) : option Z :=
  match s with
  | EmptyString => Some acc
  | String c rest =>
      match digit_in_base base c with
      | Some d => digitsInBase base (base * acc + d) rest
      | None => None
      end
  end.

(** NonDecimalIntegerLiteral: [0x], [0o] or [0b] and at least one digit. *)
Definition nonDecimalLiteral (s : string) : option Z :=
  match s with
  | String "0" (String p (String d rest)) =>
      let base :=
        if (Ascii.eqb p "x" || Ascii.eqb p "X")%bool then Some 16
        else if (Ascii.eqb p "o" || Ascii.eqb p "O")%bool then Some 8
        else if (Ascii.eqb p "b" || Ascii.eqb p "B")%bool then Some 2
        else None in
      match base with
      | Some b => digitsInBase b 0 (String d rest)
      | None => None
      end
  | _ => None
  end.

Definition StringToNumber (s : string) : float :=
  let t := trim s in
  match t with
  | EmptyString => 0%float
  | _ =>
      match nonDecimalLiteral t with
      | Some v => SF2Prim (binary_normalize prec emax v 0 false)
      | None =>
          let '(neg, body) :=
            match t with
            | String "+" r => (false, r)
            | String "-" r => (true, r)
            | _ => (false, t)
            end in
          match unsignedLiteral body, afterUnsignedLiteral body with
          | Some LitInfinity, EmptyString => if neg then neg_infinity else Infinity
          | Some (LitDecimal m e), EmptyString => SF2Prim (decimalToNumber neg m e)
          | _, _ => NaN
          end
      end
  end.

(** [ToNumber] on a field of the aggregate result. *)
Definition ToNumber_display (v : number_or_string) : float :=
  match v with
  | NumberValue x => x
  | StringValue s => StringToNumber s
  end.

(** [x >= y] on numbers: false when either is NaN. *)
Definition ge (x y : float) : bool := (y <=? x)%float.

End JS.

(** *** Objects used as maps, and JSON *)

Module JSObject.

(** An object literal: its own properties, in source order. *)
Definition object (A : Type) := list (string * A).

(** [obj[key]]: [None] stands for [undefined]. *)
Fixpoint get {A} (obj : object A) (key : string) : option A :=
  match obj with
  | [] => None
  | (k, v) :: rest => if String.eqb k key then Some v else get rest key
  end.

Definition hasOwnProperty {A} (obj : object A) (key : string) : bool :=
  match get obj key with
  | Some _ => true
  | None => false
  end.

Definition keys {A} (obj : object A) : list string := map fst obj.

(** The properties every object literal inherits from [Object.prototype],
    in an environment that has not extended it. *)
Definition ObjectPrototype_keys : list string :=
  ["constructor"; "__defineGetter__"; "__defineSetter__"; "hasOwnProperty";
   "__lookupGetter__"; "__lookupSetter__"; "isPrototypeOf";
   "propertyIsEnumerable"; "toString"; "valueOf"; "__proto__";
   "toLocaleString"].

(** What [obj[key]] evaluates to: the value of an own property, the
    function or object inherited under that name, or [undefined]. *)
Inductive property (A : Type) :=
| Own (v : A)
| Inherited (key : string)
| Undefined.
Arguments Own {A} v.
Arguments Inherited {A} key.
Arguments Undefined {A}.

Definition getProperty {A} (obj : object A) (key : string) : property A :=
  match get obj key with
  | Some v => Own v
  | None =>
      if existsb (String.eqb key) ObjectPrototype_keys then Inherited key
      else Undefined
  end.

End JSObject.

Module JSON.

(** What a number-or-null value is after [JSON.stringify] and
    [JSON.parse]: JSON has no notation for NaN and the infinities, which
    are written as null, and [-0] is written as 0; every other number is
    written with digits that read back as the same number. *)
Definition roundtrip_value (v : JS.number_or_null) : JS.number_or_null :=
  match v with
  | JS.Null => JS.Null
  | JS.Num x =>
      match Prim2SF x with
      | S754_nan | S754_infinity _ => JS.Null
      | S754_zero _ => JS.Num 0%float
      | S754_finite _ _ _ => JS.Num x
      end
  end.

End JSON.

(* ===================================================================== *)
(** ** Data layer: [class GPADataLayer] *)
(* ===================================================================== *)

(** A course object [{ name, credits, grade }]. *)
Record Course := mkCourse {
  name : string;
  credits : JS.number_or_null;
  grade : string
}.

Module GPADataLayer.

(** The text kept in [localStorage] is represented by the array of course
    objects it denotes. *)
Definition JSONtext := list Course.

Definition JSON_stringify (cs : list Course) : JSONtext :=
  map (fun c => mkCourse (name c) (JSON.roundtrip_value (credits c)) (grade c)) cs.

Definition JSON_parse (t : JSONtext) : list Course := t.

(** The program state: the [courses] field of the one data-layer instance
    and the [localStorage] item ['gpaCalculatorCourses'] ([None] when the
    item does not exist). *)
Record state := mkState {
  courses : list Course;
  localStorage : option JSONtext
}.

(** The failure the specification names for a removal outside the bounds. *)
Inductive exn := IndexOutOfRange.

(** A method call completes normally, with a result and a new state, or
    throws. *)
Inductive completion (A : Type) :=
| Normal (result : A) (st : state)
| Throw (e : exn).
Arguments Normal {A} result st.
Arguments Throw {A} e.

Definition M (A : Type) := state -> completion A.

Definition ret {A} (a : A) : M A := fun st => Normal a st.

Definition bind {A B} (m : M A) (k : A -> M B) : M B :=
  fun st =>
    match m st with
    | Normal a st' => k a st'
    | Throw e => Throw e
    end.

Notation "m ;; k" := (bind m (fun _ => k)) (at level 61, right associativity).

(** [this.courses = cs], [this.courses.push(c)], [this.courses.splice(i, 1)] *)
Definition set_courses (cs : list Course) : M unit :=
  fun st => Normal tt (mkState cs (localStorage st)).

Definition push (c : Course) : M unit :=
  fun st => Normal tt (mkState (courses st ++ [c])%list (localStorage st)).

Definition splice (index : Z) : M unit :=
  fun st => Normal tt (mkState (JS.splice1 index (courses st)) (localStorage st)).

(** [localStorage.setItem('gpaCalculatorCourses', text)]; the write is taken
    to succeed. *)
Definition setItem (text : JSONtext) : M unit :=
  fun st => Normal tt (mkState (courses st) (Some text)).

(** [stored ? JSON.parse(stored) : []] on the item the storage holds. *)
Definition loadFromStorage (storage : option JSONtext) : list Course :=
  match storage with
  | Some stored => JSON_parse stored
  | None => []
  end.

(** [new GPADataLayer()] over a given storage. *)
Definition constructor (storage : option JSONtext) : state :=
  mkState (loadFromStorage storage) storage.

Definition saveToStorage : M unit :=
  fun st => setItem (JSON_stringify (courses st)) st.

Definition addCourse (course : Course) : M unit :=
  push course ;; saveToStorage.

Definition removeCourse (index : Z) : M unit :=
  splice index ;; saveToStorage.

Definition clearAllCourses : M unit :=
  set_courses [] ;; saveToStorage.

Definition getAllCourses : M (list Course) :=
  fun st => Normal (courses st) st.

(** The state a call leaves behind; the state before it when it throws. *)
Definition exec {A} (m : M A) (st : state) : state :=
  match m st with
  | Normal _ st' => st'
  | Throw _ => st
  end.

End GPADataLayer.

(* ===================================================================== *)
(** ** Processing layer: [class GPAProcessor] *)
(* ===================================================================== *)

(** The object [calculateGPA] returns. *)
Record AggregateResult := mkResult {
  gpa : JS.number_or_string;
  totalCredits : float;
  totalPoints : JS.number_or_string;
  courseCount : nat
}.

Module GPAProcessor.

Definition gradePoints : JSObject.object float :=
  [ ("4.0", 4.0); ("3.7", 3.7); ("3.3", 3.3); ("3.0", 3.0);
    ("2.7", 2.7); ("2.3", 2.3); ("2.0", 2.0); ("1.7", 1.7);
    ("1.3", 1.3); ("1.0", 1.0); ("0.0", 0.0) ]%float.

(** One turn of the [forEach] body, on the two running totals. *)
Definition accumulate (totals : float * float) (course : Course) : float * float :=
  let '(totalCredits, totalPoints) := totals in
  let credits := JS.parseFloat (credits course) in
  let gradePoint := JS.parseFloat_string (grade course) in
  ((totalCredits + credits)%float, (totalPoints + credits * gradePoint)%float).

Section Calculate.

Variable toString_large : float -> string.

Definition calculateGPA (courses : list Course) : AggregateResult :=
  if (List.length courses =? 0)%nat then
    mkResult (JS.NumberValue 0) 0 (JS.NumberValue 0) 0
  else
    let '(totalCredits, totalPoints) := fold_left accumulate courses (0, 0)%float in
    let gpa := if JS.gt_zero totalCredits then (totalPoints / totalCredits)%float
               else 0%float in
    mkResult (JS.StringValue (JS.toFixed toString_large gpa 2))
             totalCredits
             (JS.StringValue (JS.toFixed toString_large totalPoints 2))
             (List.length courses).

End Calculate.

Definition validateCourse (name : string) (credits : JS.number_or_null)
           (grade : string) : list string :=
  let errors : list string := [] in
  let errors :=
    if negb (JS.truthy (JS.trim name))
    then (errors ++ ["Course name is required"])%list else errors in
  let errors :=
    if JS.isNaN credits || JS.le_zero credits
    then (errors ++ ["Credits must be a positive number"])%list else errors in
  let errors :=
    if negb (JSObject.hasOwnProperty gradePoints grade)
    then (errors ++ ["Invalid grade selected"])%list else errors in
  errors.

End GPAProcessor.

(* ===================================================================== *)
(** ** User-interface layer: the handlers that change the data *)
(* ===================================================================== *)

Module GPAUI.

Import GPADataLayer.

(** [addCourseHandler], on the [value]s of the three form controls.  The
    alert, the form reset and the rendering do not touch the data. *)
Definition addCourseHandler (nameValue creditsValue gradeValue : string) : M unit :=
  let name := JS.trim nameValue in
  let credits := JS.parseFloat_string creditsValue in
  let grade := gradeValue in
  let errors := GPAProcessor.validateCourse name (JS.Num credits) grade in
  if (0 <? List.length errors)%nat then ret tt
  else addCourse (mkCourse name (JS.Num credits) grade).

Definition removeCourseHandler (index : Z) : M unit := removeCourse index.

(** [clearAllCoursesHandler], on the answer to the confirmation dialog. *)
Definition clearAllCoursesHandler (confirmed : bool) : M unit :=
  if confirmed then clearAllCourses else ret tt.

(** [saveDataHandler]; the alert does not touch the data. *)
Definition saveDataHandler : M unit := saveToStorage.

(** The page load at the end of the script: a new data layer over the
    storage as it is. *)
Definition pageLoad (st : state) : state := constructor (localStorage st).

(** The class name [updateGPAColor] leaves on the GPA element. *)
Definition updateGPAColor (gpa : JS.number_or_string) : string :=
  let className := "gpa-value" in
  let x := JS.ToNumber_display gpa in
  if JS.ge x 3.7 then className ++ " excellent"
  else if JS.ge x 3.0 then className ++ " good"
  else if JS.ge x 2.0 then className ++ " average"
  else className ++ " poor".

Definition gradeLabels : JSObject.object string :=
  [ ("4.0", "A"); ("3.7", "A-"); ("3.3", "B+"); ("3.0", "B");
    ("2.7", "B-"); ("2.3", "C+"); ("2.0", "C"); ("1.7", "C-");
    ("1.3", "D+"); ("1.0", "D"); ("0.0", "F") ].

(** What [getGradeLabel] returns: a text, or the function or object that
    the table inherits under the given name. *)
Inductive label :=
| Text (s : string)
| InheritedValue (key : string).

(** [gradeLabels[gradeValue] || 'Unknown'] *)
Definition getGradeLabel (gradeValue : string) : label :=
  match JSObject.getProperty gradeLabels gradeValue with
  | JSObject.Own l => if JS.truthy l then Text l else Text "Unknown"
  | JSObject.Inherited key => InheritedValue key
  | JSObject.Undefined => Text "Unknown"
  end.

Definition escapeHtml (unsafe : string) : string :=
  JS.replaceAll "'" "&#039;"
    (JS.replaceAll JS.quotationMark "&quot;"
       (JS.replaceAll ">" "&gt;"
          (JS.replaceAll "<" "&lt;"
             (JS.replaceAll "&" "&amp;" unsafe)))).

End GPAUI.

(* ===================================================================== *)
(** ** Vocabulary of the properties *)
(* ===================================================================== *)

(** The eleven grade tokens. *)
Definition tokens : list string :=
  ["4.0"; "3.7"; "3.3"; "3.0"; "2.7"; "2.3"; "2.0"; "1.7"; "1.3"; "1.0"; "0.0"].


(** A number above zero: a positive finite number or [+Infinity]. *)
Definition positive_number (x : float) : Prop :=
  match Prim2SF x with
  | S754_finite false _ _ | S754_infinity false => True
  | _ => False
  end.

(** A positive number that is finite. *)
Definition finite_positive (x : float) : Prop :=
  match Prim2SF x with
  | S754_finite false _ _ => True
  | _ => False
  end.

(** The three messages of [validateCourse]. *)
Definition nameMessage : string := "Course name is required".
Definition creditsMessage : string := "Credits must be a positive number".
Definition gradeMessage : string := "Invalid grade selected".

(** A course as the data model describes it: a name that is not blank,
    credits that are a positive real number, a grade from the token set. *)
Definition Course_valid (c : Course) : Prop :=
  JS.trim (name c) <> EmptyString /\
  (exists x, credits c = JS.Num x /\ finite_positive x) /\
  In (grade c) tokens.

(** Credits that [JSON.stringify] and [JSON.parse] give back as they are:
    [null], or a finite number other than [-0]. *)
Definition credits_kept (c : Course) : Prop :=
  match credits c with
  | JS.Null => True
  | JS.Num x =>
      match Prim2SF x with
      | S754_finite _ _ _ | S754_zero false => True
      | _ => False
      end
  end.

(** A course that [validateCourse] accepts. *)
Definition passes_validation (c : Course) : Prop :=
  GPAProcessor.validateCourse (name c) (credits c) (grade c) = [].

(** What the credits test rejects: a number that is not above zero, and
    [null]. *)
Definition credits_rejected (credits : JS.number_or_null) : Prop :=
  match credits with
  | JS.Num x => ~ positive_number x
  | JS.Null => True
  end.

(** Every record the data layer holds passes [validateCourse]. *)
Definition valid_store (st : GPADataLayer.state) : Prop :=
  Forall passes_validation (GPADataLayer.courses st).

(** A course whose credits are a number above zero. *)
Definition credits_above_zero (c : Course) : Prop :=
  exists x, credits c = JS.Num x /\ positive_number x.

(** The sum of a list of numbers, added from the left as a loop does. *)
Definition sum_floats (xs : list float) : float :=
  fold_left PrimFloat.add xs 0%float.

(** The credits of a course as [calculateGPA] reads them. *)
Definition creditsNumber (c : Course) : float := JS.parseFloat (credits c).


(** The same on binary64 data: a positive finite number or [+Infinity]. *)
Definition sf_positive (x : spec_float) : Prop :=
  match x with
  | S754_finite false _ _ | S754_infinity false => True
  | _ => False
  end.

(** [p] with [k] zero bits appended. *)
Definition shl (p : positive) (k : nat) : positive := Nat.iter k xO p.

(** The binary64 datum of [p * 2^E], for [p] of at most 53 bits. *)
Definition canonical (p : positive) (E : Z) : spec_float :=
  S754_finite false (shl p (Z.to_nat (53 - Zpos (digits2_pos p))))
              (E + Zpos (digits2_pos p) - 53).

(** The number [n * 2^E]: a whole number of units of [2^E] (ones for
    [E = 0], halves for [E = -1]). *)
Definition of_dyadic (n : positive) (E : Z) : float :=
  SF2Prim (binary_normalize prec emax (Zpos n) E false).

Fixpoint units_total (ns : list positive) : Z :=
  match ns with
  | [] => 0
  | n :: rest => Zpos n + units_total rest
  end.

(** Two courses for the examples, and a printer for the numbers from
    [10^21] on; the examples have no such number, so any printer will do. *)
Definition cs101 : Course := mkCourse "CS101" (JS.Num 3) "4.0".
Definition math201 : Course := mkCourse "MATH201" (JS.Num 4) "3.7".
Definition phys150 : Course := mkCourse "PHYS150" (JS.Num 1.5) "2.3".
Definition no_large_numbers (x : float) : string := "1e+21".

(** The credits of the three example courses, in halves. *)
Definition half_credits (c : Course) : positive :=
  if String.eqb (name c) "CS101" then 6
  else if String.eqb (name c) "MATH201" then 8
  else 3.

(** What the user can do to the page. *)
Inductive event :=
| SubmitCourse (nameValue creditsValue gradeValue : string)
| ClickRemove (index : Z)
| ClickClearAll (confirmed : bool)
| ClickSave
| Reload.

Definition handle (st : GPADataLayer.state) (e : event) : GPADataLayer.state :=
  match e with
  | SubmitCourse n c g => GPADataLayer.exec (GPAUI.addCourseHandler n c g) st
  | ClickRemove index => GPADataLayer.exec (GPAUI.removeCourseHandler index) st
  | ClickClearAll confirmed =>
      GPADataLayer.exec (GPAUI.clearAllCoursesHandler confirmed) st
  | ClickSave => GPADataLayer.exec GPAUI.saveDataHandler st
  | Reload => GPAUI.pageLoad st
  end.

(** The state after a sequence of events on a first visit (no item in the
    storage yet). *)
Definition session (events : list event) : GPADataLayer.state :=
  fold_left handle events (GPADataLayer.constructor None).

(** The text that replaces one code unit in [escapeHtml]. *)
Definition escapeChar (c : ascii) : string :=
  if Ascii.eqb c "&" then "&amp;"
  else if Ascii.eqb c "<" then "&lt;"
  else if Ascii.eqb c ">" then "&gt;"
  else if Ascii.eqb c JS.quotationMark then "&quot;"
  else if Ascii.eqb c "'" then "&#039;"
  else String c EmptyString.

Fixpoint escapeEach (s : string) : string :=
  match s with
  | EmptyString => EmptyString
  | String c rest => escapeChar c ++ escapeEach rest
  end.

(** Every code unit of [s] satisfies [P]. *)
Fixpoint ForallChars (P : ascii -> Prop) (s : string) : Prop :=
  match s with
  | EmptyString => True
  | String c rest => P c /\ ForallChars P rest
  end.

Definition isDigit (c : ascii) : Prop := JS.digit_of c <> None.

(** The code units that open or close markup or an attribute value. *)
Definition isMarkup (c : ascii) : Prop :=
  c = "<"%char \/ c = ">"%char \/ c = JS.quotationMark \/ c = "'"%char.

(** The colour class for a GPA shown as [n] hundredths. *)
Definition colourOfHundredths (n : Z) : string :=
  if 370 <=? n then "gpa-value excellent"
  else if 300 <=? n then "gpa-value good"
  else if 200 <=? n then "gpa-value average"
  else "gpa-value poor".

(** [s] is empty or starts with a code unit that is not white space. *)
Definition startsClean (s : string) : Prop :=
  match s with
  | EmptyString => True
  | String c _ => JS.isWhiteSpace c = false
  end.

(** What holds of every course a session leaves in the store. *)
Definition session_record (c : Course) : Prop :=
  name c = JS.trim (name c)
  /\ name c <> EmptyString
  /\ In (grade c) tokens
  /\ (credits c = JS.Null \/ exists x, credits c = JS.Num x /\ positive_number x).

(** The storage is untouched and nothing is held, or the storage holds what
    [JSON.stringify] makes of the courses held. *)
Definition written_through (st : GPADataLayer.state) : Prop :=
  (GPADataLayer.localStorage st = None /\ GPADataLayer.courses st = [])
  \/ GPADataLayer.localStorage st
     = Some (GPADataLayer.JSON_stringify (GPADataLayer.courses st)).

Definition isSubmit (e : event) : bool :=
  match e with
  | SubmitCourse _ _ _ => true
  | _ => false
  end.

(** Credits that [parseFloat] reads as NaN. *)
Definition credits_unreadable (c : Course) : Prop :=
  credits c = JS.Null \/ credits c = JS.Num JS.NaN.

(** Binary64 data that are not below zero: [+0], a positive number,
    [+Infinity], or NaN. *)
Definition sf_not_below_zero (x : spec_float) : Prop :=
  match x with
  | S754_zero false | S754_finite false _ _ | S754_infinity false | S754_nan => True
  | _ => False
  end.

(** [+Infinity] or NaN. *)
Definition sf_unbounded (x : spec_float) : Prop :=
  match x with
  | S754_infinity false | S754_nan => True
  | _ => False
  end.

(** A text of digits with exactly two decimals, after a minus sign when
    [negative]. *)
Definition two_decimal_text (negative : bool) (s : string) : Prop :=
  exists whole hundredths,
    s = (if negative then "-" else "") ++ whole ++ "." ++ hundredths
    /\ (1 <= String.length whole)%nat
    /\ String.length hundredths = 2%nat
    /\ ForallChars isDigit whole
    /\ ForallChars isDigit hundredths.

(** What [toFixed(2)] shows for [x]: NaN and the infinities by name, zero
    as 0.00, and a finite number below [10^21] in magnitude with exactly
    two decimals. *)
Definition shown_with_two_decimals (shown : string) (x : float) : Prop :=
  match Prim2SF x with
  | S754_nan => shown = "NaN"
  | S754_infinity false => shown = "Infinity"
  | S754_infinity true => shown = "-Infinity"
  | S754_zero _ => shown = "0.00"
  | S754_finite negative m e =>
      JS.atLeast1e21 m e = false -> two_decimal_text negative shown
  end.

(** Whether the colour of the two-decimal text of [n] hundredths is the one
    [colourOfHundredths] gives. *)
Definition colour_agrees (n : Z) : bool :=
  String.eqb (GPAUI.updateGPAColor (JS.StringValue (JS.fixedDigits n 2)))
             (colourOfHundredths n).

(** The sequence without its element at position [k]. *)
Definition without {A} (k : nat) (l : list A) : list A :=
  (firstn k l ++ skipn (S k) l)%list.

(* ===================================================================== *)
(** ** Removal by index *)
(* ===================================================================== *)

Section Splice.

Context {A : Type}.
Implicit Types (l : list A) (index : Z).

Lemma splice1_past_end l index :
  Z.of_nat (List.length l) <= index -> JS.splice1 index l = l.
Proof.
  intros Hge. unfold JS.splice1, JS.actualStart.
  assert (Hpos : (index <? 0) = false) by (apply Z.ltb_ge; lia).
  rewrite Hpos, Z.min_r, Nat2Z.id, Nat.sub_diag by lia.
  cbn [Nat.min]. rewrite Nat.add_0_r. apply firstn_skipn.
Qed.

Lemma splice1_nil index : JS.splice1 index (@nil A) = [].
Proof.
  unfold JS.splice1. now rewrite firstn_nil, skipn_nil.
Qed.

Lemma splice1_inside l (k : nat) :
  (k < List.length l)%nat ->
  (firstn k l ++ skipn (k + Nat.min 1 (List.length l - k)) l)%list = without k l.
Proof.
  intros Hk. unfold without.
  replace (Nat.min 1 (List.length l - k)) with 1%nat by lia.
  now rewrite Nat.add_1_r.
Qed.

Lemma splice1_from_start l index :
  0 <= index < Z.of_nat (List.length l) ->
  JS.splice1 index l = without (Z.to_nat index) l.
Proof.
  intros Hin. unfold JS.splice1.
  assert (Hs : JS.actualStart index l = Z.to_nat index).
  { unfold JS.actualStart.
    assert (Hpos : (index <? 0) = false) by (apply Z.ltb_ge; lia).
    rewrite Hpos, Z.min_l by lia. reflexivity. }
  rewrite Hs. apply splice1_inside. lia.
Qed.

Lemma splice1_from_end l index :
  - Z.of_nat (List.length l) <= index <= -1 ->
  JS.splice1 index l = without (Z.to_nat (Z.of_nat (List.length l) + index)) l.
Proof.
  intros Hin. unfold JS.splice1.
  assert (Hs : JS.actualStart index l = Z.to_nat (Z.of_nat (List.length l) + index)).
  { unfold JS.actualStart.
    assert (Hneg : (index <? 0) = true) by (apply Z.ltb_lt; lia).
    rewrite Hneg, Z.max_l by lia. reflexivity. }
  rewrite Hs. apply splice1_inside. lia.
Qed.

Lemma without_last l :
  without (List.length l - 1) l = removelast l.
Proof.
  unfold without. destruct l as [|a l']; [reflexivity|].
  replace (S (List.length (a :: l') - 1)) with (List.length (a :: l'))
    by (cbn [List.length]; lia).
  rewrite skipn_all, app_nil_r.
  rewrite removelast_firstn_len. f_equal. cbn [List.length]. lia.
Qed.

Lemma without_length l k :
  (k < List.length l)%nat -> List.length (without k l) = (List.length l - 1)%nat.
Proof.
  intros Hk. unfold without.
  rewrite length_app, length_firstn, length_skipn. lia.
Qed.

Lemma splice1_incl l index x : In x (JS.splice1 index l) -> In x l.
Proof.
  unfold JS.splice1. intros Hin. apply in_app_or in Hin.
  rewrite <- (firstn_skipn (JS.actualStart index l) l).
  apply in_or_app. destruct Hin as [Hin | Hin]; [now left|right].
  rewrite <- (firstn_skipn (Nat.min 1 (List.length l - JS.actualStart index l))
                (skipn (JS.actualStart index l) l)).
  apply in_or_app. right. now rewrite skipn_skipn, Nat.add_comm.
Qed.

End Splice.

Module DataLayerFacts.

Import GPADataLayer.

(** What each mutator leaves behind: the new sequence, written through. *)
Lemma removeCourse_runs index st :
  removeCourse index st =
  Normal tt (mkState (JS.splice1 index (courses st))
                     (Some (JSON_stringify (JS.splice1 index (courses st))))).
Proof. reflexivity. Qed.

Lemma addCourse_runs c st :
  addCourse c st =
  Normal tt (mkState (courses st ++ [c])
                     (Some (JSON_stringify (courses st ++ [c]))))%list.
Proof. reflexivity. Qed.

Lemma clearAllCourses_runs st :
  clearAllCourses st = Normal tt (mkState [] (Some [])).
Proof. reflexivity. Qed.

(** C3, as stated, fails: removing at index 0 from the empty store
    completes normally. *)
Lemma removeCourse_empty_store_returns :
  removeCourse 0 (constructor None) = Normal tt (mkState [] (Some []))
  /\ removeCourse 0 (constructor None) <> Throw IndexOutOfRange.
Proof. split; [reflexivity | discriminate]. Qed.

(** C3, amended: for an index at or past the end, and for any index on an
    empty store, [removeCourse] completes normally, keeps the course
    sequence as it was and writes that same sequence to the storage. *)
Theorem removeCourse_out_of_bounds st index :
  courses st = [] \/ Z.of_nat (List.length (courses st)) <= index ->
  removeCourse index st =
  Normal tt (mkState (courses st) (Some (JSON_stringify (courses st)))).
Proof.
  intros Hout. rewrite removeCourse_runs.
  destruct Hout as [Hnil | Hge].
  - now rewrite Hnil, splice1_nil.
  - now rewrite splice1_past_end.
Qed.

(** C10: on a non-empty store a negative index [i] with
    [-length <= i <= -1] removes the element at position [length + i]:
    the call completes normally, one course fewer remains, and for
    [i = -1] it is the last course that went. *)
Theorem removeCourse_negative_index st index :
  courses st <> [] ->
  - Z.of_nat (List.length (courses st)) <= index <= -1 ->
  let k := Z.to_nat (Z.of_nat (List.length (courses st)) + index) in
  removeCourse index st =
    Normal tt (mkState (without k (courses st))
                       (Some (JSON_stringify (without k (courses st)))))
  /\ nth_error (courses st) k <> None
  /\ List.length (without k (courses st)) = (List.length (courses st) - 1)%nat
  /\ (index = -1 -> without k (courses st) = removelast (courses st)).
Proof.
  intros Hne Hin k. split; [|split; [|split]].
  - rewrite removeCourse_runs. subst k. now rewrite splice1_from_end.
  - apply nth_error_Some. subst k. lia.
  - apply without_length. subst k. lia.
  - intros ->. subst k.
    replace (Z.to_nat (Z.of_nat (List.length (courses st)) + -1))
      with (List.length (courses st) - 1)%nat by lia.
    apply without_last.
Qed.

End DataLayerFacts.

(* ===================================================================== *)
(** ** Comparisons of numbers with zero *)
(* ===================================================================== *)

Module NumberFacts.

Lemma Prim2SF_zero : Prim2SF 0%float = S754_zero false.
Proof. reflexivity. Qed.

Lemma SFeqb_refl_finite s m e :
  SFeqb (S754_finite s m e) (S754_finite s m e) = true.
Proof.
  unfold SFeqb, SFcompare.
  rewrite Z.compare_refl, Pos.compare_cont_refl.
  now destruct s.
Qed.

(** [isNaN(x)] holds for NaN only. *)
Lemma is_nan_spec x : is_nan x = true <-> Prim2SF x = S754_nan.
Proof.
  unfold is_nan. rewrite FloatAxioms.eqb_spec.
  destruct (Prim2SF x) as [s | s | | s m e].
  - destruct s; cbn; split; discriminate.
  - destruct s; cbn; split; discriminate.
  - cbn. split; reflexivity.
  - rewrite SFeqb_refl_finite. cbn. split; discriminate.
Qed.

(** [x > 0] holds for the positive finite numbers and [+Infinity]. *)
Lemma gt_zero_spec x : JS.gt_zero x = true <-> positive_number x.
Proof.
  unfold JS.gt_zero, positive_number.
  rewrite ltb_spec, Prim2SF_zero.
  destruct (Prim2SF x) as [s | s | | s m e]; try destruct s; cbn;
    intuition discriminate.
Qed.

(** The test of [validateCourse] on a number fails for what is not above
    zero: NaN, both zeros, the negative numbers and [-Infinity]. *)
Lemma credits_test_spec x :
  JS.isNaN (JS.Num x) || JS.le_zero (JS.Num x) = true <-> ~ positive_number x.
Proof.
  unfold JS.isNaN, JS.le_zero, JS.ToNumber, positive_number, is_nan.
  rewrite FloatAxioms.eqb_spec, leb_spec, Prim2SF_zero.
  destruct (Prim2SF x) as [s | s | | s m e].
  - destruct s; cbn; intuition.
  - destruct s; cbn; intuition discriminate.
  - cbn. intuition.
  - rewrite SFeqb_refl_finite. destruct s; cbn; intuition discriminate.
Qed.

Lemma credits_test_null :
  JS.isNaN JS.Null || JS.le_zero JS.Null = true.
Proof. reflexivity. Qed.

(** The finite positive numbers are those between zero and [Infinity]. *)
Lemma finite_positive_spec x :
  finite_positive x <-> JS.gt_zero x = true /\ (x <? JS.Infinity)%float = true.
Proof.
  unfold finite_positive, JS.gt_zero.
  rewrite !ltb_spec, Prim2SF_zero.
  change (Prim2SF JS.Infinity) with (S754_infinity false).
  destruct (Prim2SF x) as [s | s | | s m e]; try destruct s; cbn;
    intuition discriminate.
Qed.

Lemma finite_is_positive x : finite_positive x -> positive_number x.
Proof.
  unfold finite_positive, positive_number.
  destruct (Prim2SF x) as [s | s | | s m e]; try destruct s; tauto.
Qed.

Lemma positive_number_cases x :
  positive_number x <-> finite_positive x \/ x = JS.Infinity.
Proof.
  unfold positive_number, finite_positive. split.
  - destruct (Prim2SF x) as [s | s | | s m e] eqn:Hx; try destruct s;
      try tauto.
    intros _. right. apply Prim2SF_inj. now rewrite Hx.
  - intros [Hfin | ->]; [| exact I].
    destruct (Prim2SF x) as [s | s | | s m e]; try destruct s; tauto.
Qed.

(** Reading a number above zero through [parseFloat] gives it back. *)
Lemma parseFloat_positive x :
  positive_number x -> JS.parseFloat (JS.Num x) = x.
Proof.
  unfold positive_number, JS.parseFloat.
  destruct (Prim2SF x) as [s | s | | s m e]; try destruct s; tauto.
Qed.

(** JSON keeps a finite positive number. *)
Lemma roundtrip_finite_positive x :
  finite_positive x -> JSON.roundtrip_value (JS.Num x) = JS.Num x.
Proof.
  unfold finite_positive, JSON.roundtrip_value.
  destruct (Prim2SF x) as [s | s | | s m e]; try destruct s; tauto.
Qed.

End NumberFacts.

(* ===================================================================== *)
(** ** The grade table and validation *)
(* ===================================================================== *)

Module ObjectFacts.

Import JSObject.

Lemma get_None_iff {A} (obj : object A) key :
  get obj key = None <-> ~ In key (keys obj).
Proof.
  induction obj as [| [k v] rest IH]; cbn.
  - tauto.
  - destruct (String.eqb_spec k key) as [-> | Hne].
    + split; [discriminate | intros H; exfalso; apply H; now left].
    + rewrite IH. tauto.
Qed.

Lemma hasOwnProperty_iff {A} (obj : object A) key :
  hasOwnProperty obj key = true <-> In key (keys obj).
Proof.
  unfold hasOwnProperty.
  destruct (get obj key) eqn:Hget.
  - split; [intros _ | reflexivity].
    destruct (in_dec string_dec key (keys obj)) as [Hin | Hout]; [exact Hin|].
    apply get_None_iff in Hout. congruence.
  - apply get_None_iff in Hget. split; [discriminate | tauto].
Qed.

Lemma hasOwnProperty_false_iff {A} (obj : object A) key :
  hasOwnProperty obj key = false <-> ~ In key (keys obj).
Proof.
  rewrite <- hasOwnProperty_iff. destruct (hasOwnProperty obj key).
  - split; [discriminate | intros H; now elim H].
  - split; [discriminate | reflexivity].
Qed.

End ObjectFacts.

Module ValidationFacts.

Import GPAProcessor.

Lemma keys_gradePoints : JSObject.keys gradePoints = tokens.
Proof. reflexivity. Qed.

(** The three tests each contribute their own message, in this order,
    whatever the other two find. *)
Lemma validateCourse_shape name credits grade :
  validateCourse name credits grade =
    ((if negb (JS.truthy (JS.trim name)) then [nameMessage] else []) ++
     (if JS.isNaN credits || JS.le_zero credits then [creditsMessage] else []) ++
     (if negb (JSObject.hasOwnProperty gradePoints grade)
      then [gradeMessage] else []))%list.
Proof.
  unfold validateCourse.
  destruct (negb (JS.truthy (JS.trim name))),
           (JS.isNaN credits || JS.le_zero credits),
           (negb (JSObject.hasOwnProperty gradePoints grade)); reflexivity.
Qed.

Lemma truthy_false_iff s : negb (JS.truthy s) = true <-> s = EmptyString.
Proof. destruct s; cbn; split; congruence. Qed.

Ltac split_tests :=
  rewrite validateCourse_shape;
  destruct (negb (JS.truthy (JS.trim _))) eqn:?Hname,
           (JS.isNaN _ || JS.le_zero _) eqn:?Hcredits,
           (negb (JSObject.hasOwnProperty gradePoints _)) eqn:?Hgrade;
  cbn [app In]; unfold nameMessage, creditsMessage, gradeMessage.

Lemma nameMessage_iff name credits grade :
  In nameMessage (validateCourse name credits grade) <->
  negb (JS.truthy (JS.trim name)) = true.
Proof. split_tests; intuition discriminate. Qed.

Lemma creditsMessage_iff name credits grade :
  In creditsMessage (validateCourse name credits grade) <->
  JS.isNaN credits || JS.le_zero credits = true.
Proof. split_tests; intuition discriminate. Qed.

Lemma gradeMessage_iff name credits grade :
  In gradeMessage (validateCourse name credits grade) <->
  negb (JSObject.hasOwnProperty gradePoints grade) = true.
Proof. split_tests; intuition discriminate. Qed.

Lemma no_errors_iff name credits grade :
  validateCourse name credits grade = [] <->
  negb (JS.truthy (JS.trim name)) = false /\
  JS.isNaN credits || JS.le_zero credits = false /\
  negb (JSObject.hasOwnProperty gradePoints grade) = false.
Proof. split_tests; intuition discriminate. Qed.

Lemma grade_test_iff grade :
  negb (JSObject.hasOwnProperty gradePoints grade) = true <-> ~ In grade tokens.
Proof.
  rewrite negb_true_iff, ObjectFacts.hasOwnProperty_false_iff, keys_gradePoints.
  tauto.
Qed.

Lemma credits_test_iff credits :
  JS.isNaN credits || JS.le_zero credits = true <-> credits_rejected credits.
Proof.
  destruct credits as [x |].
  - apply NumberFacts.credits_test_spec.
  - cbn. tauto.
Qed.

Lemma accepted_iff name credits grade :
  validateCourse name credits grade = [] <->
  JS.trim name <> EmptyString /\ ~ credits_rejected credits /\ In grade tokens.
Proof.
  rewrite no_errors_iff.
  pose proof (truthy_false_iff (JS.trim name)) as Hn.
  pose proof (credits_test_iff credits) as Hc.
  pose proof (grade_test_iff grade) as Hg.
  destruct (negb (JS.truthy (JS.trim name))),
           (JS.isNaN credits || JS.le_zero credits),
           (negb (JSObject.hasOwnProperty gradePoints grade));
    destruct (in_dec string_dec grade tokens);
    intuition (try discriminate).
Qed.

(** C4: the name, credits and grade tests are independent and all their
    messages are returned together: each message is in the result exactly
    when its own test fails, the result is empty exactly when no test
    fails, one failing test gives exactly its one message and three
    failing tests give the three messages. *)
Theorem validateCourse_collects_all_errors :
  (forall name credits grade,
      (In nameMessage (validateCourse name credits grade)
         <-> JS.trim name = EmptyString)
      /\ (In creditsMessage (validateCourse name credits grade)
         <-> credits_rejected credits)
      /\ (In gradeMessage (validateCourse name credits grade)
         <-> ~ In grade tokens)
      /\ (validateCourse name credits grade = []
         <-> JS.trim name <> EmptyString /\ ~ credits_rejected credits
             /\ In grade tokens)
      /\ validateCourse name credits grade =
           ((if negb (JS.truthy (JS.trim name)) then [nameMessage] else []) ++
            (if JS.isNaN credits || JS.le_zero credits then [creditsMessage] else []) ++
            (if negb (JSObject.hasOwnProperty gradePoints grade)
             then [gradeMessage] else []))%list)
  /\ validateCourse "" (JS.Num 3) "4.0" = [nameMessage]
  /\ validateCourse "CS101" (JS.Num (-1)) "4.0" = [creditsMessage]
  /\ validateCourse "CS101" (JS.Num 3) "9.9" = [gradeMessage]
  /\ validateCourse "" (JS.Num (-1)) "9.9"
     = [nameMessage; creditsMessage; gradeMessage].
Proof.
  split; [| repeat split; reflexivity].
  intros name credits grade.
  split; [| split; [| split; [| split]]].
  - rewrite nameMessage_iff. apply truthy_false_iff.
  - rewrite creditsMessage_iff. apply credits_test_iff.
  - rewrite gradeMessage_iff. apply grade_test_iff.
  - apply accepted_iff.
  - apply validateCourse_shape.
Qed.

End ValidationFacts.

Module CreditsFacts.

Import GPAProcessor.

(** C5, as stated, fails: [Infinity] is not a finite number, and
    [validateCourse] reports nothing for it. *)
Lemma validateCourse_accepts_infinity :
  validateCourse "CS101" (JS.Num JS.Infinity) "4.0" = []
  /\ ~ finite_positive JS.Infinity
  /\ ~ In creditsMessage (validateCourse "CS101" (JS.Num JS.Infinity) "4.0").
Proof.
  split; [reflexivity | split].
  - cbn. tauto.
  - cbn. tauto.
Qed.

(** C5, amended: for a number [x], the credits message is reported exactly
    when [x] is not above zero.  NaN, both zeros, every negative number
    and [-Infinity] are rejected; every finite positive number is
    accepted, and so is [+Infinity]. *)
Theorem creditsMessage_iff_not_above_zero :
  forall name x grade,
    (In creditsMessage (validateCourse name (JS.Num x) grade)
       <-> ~ positive_number x)
    /\ (positive_number x <-> JS.gt_zero x = true)
    /\ (positive_number x <-> finite_positive x \/ x = JS.Infinity)
    /\ (Prim2SF x = S754_nan \/ (x <=? 0)%float = true ->
        In creditsMessage (validateCourse name (JS.Num x) grade)).
Proof.
  intros name x grade.
  assert (Hmsg : In creditsMessage (validateCourse name (JS.Num x) grade)
                 <-> ~ positive_number x).
  { rewrite ValidationFacts.creditsMessage_iff.
    apply NumberFacts.credits_test_spec. }
  split; [exact Hmsg | split; [| split]].
  - symmetry. apply NumberFacts.gt_zero_spec.
  - apply NumberFacts.positive_number_cases.
  - intros Hbad. apply ValidationFacts.creditsMessage_iff.
    apply orb_true_iff. destruct Hbad as [Hnan | Hle].
    + left. now apply NumberFacts.is_nan_spec.
    + right. exact Hle.
Qed.

End CreditsFacts.

Module GradeFacts.

Import GPAProcessor.

Lemma tokens_NoDup : NoDup tokens.
Proof.
  unfold tokens.
  repeat (constructor; [cbn; intuition discriminate |]).
  constructor.
Qed.


Lemma token_value g :
  In g tokens ->
  exists v, JSObject.get gradePoints g = Some v
            /\ v = JS.parseFloat_string g
            /\ (0 <=? v)%float = true /\ (v <=? 4)%float = true.
Proof.
  unfold tokens. cbn [In]. intros Hin.
  repeat (destruct Hin as [<- | Hin];
          [eexists; split; [reflexivity |];
           split; [vm_compute; reflexivity |];
           split; vm_compute; reflexivity |]).
  contradiction.
Qed.

(** C8: the grade table has exactly the eleven tokens as its own
    properties; each token maps to the number it denotes, which lies
    between 0 and 4; any other string (another spelling, a letter grade,
    the empty string) has no entry, and validation reports the grade
    message for exactly those strings. *)
Theorem gradePoints_defined_on_tokens_only :
  List.length tokens = 11%nat
  /\ NoDup tokens
  /\ (forall g, JSObject.hasOwnProperty gradePoints g = true <-> In g tokens)
  /\ (forall g, In g tokens ->
        exists v, JSObject.get gradePoints g = Some v
                  /\ v = JS.parseFloat_string g
                  /\ (0 <=? v)%float = true /\ (v <=? 4)%float = true)
  /\ (forall g, ~ In g tokens -> JSObject.get gradePoints g = None)
  /\ (forall name credits g,
        In gradeMessage (validateCourse name credits g) <-> ~ In g tokens)
  /\ Forall (fun g => JSObject.get gradePoints g = None
                      /\ In gradeMessage (validateCourse "CS101" (JS.Num 3) g))
            ["A"; "a"; "B+"; "4"; "4.00"; " 4.0"; "4.0 "; "+4.0"; "5.0"; ""].
Proof.
  split; [reflexivity |].
  split; [exact tokens_NoDup |].
  split; [| split; [| split; [| split]]].
  - intros g. rewrite ObjectFacts.hasOwnProperty_iff.
    now rewrite ValidationFacts.keys_gradePoints.
  - exact token_value.
  - intros g Hout. apply ObjectFacts.get_None_iff.
    now rewrite ValidationFacts.keys_gradePoints.
  - intros name credits g. rewrite ValidationFacts.gradeMessage_iff.
    apply ValidationFacts.grade_test_iff.
  - repeat (constructor; [split; [reflexivity | cbn; tauto] |]).
    constructor.
Qed.

End GradeFacts.

(* ===================================================================== *)
(** ** Persistence and the store's records *)
(* ===================================================================== *)

Module StoreFacts.

Import GPADataLayer.

(** The data model's courses are the accepted ones whose credits are not
    [+Infinity]. *)
Lemma Course_valid_iff c :
  Course_valid c <-> passes_validation c /\ credits c <> JS.Num JS.Infinity.
Proof.
  unfold Course_valid, passes_validation.
  rewrite ValidationFacts.accepted_iff.
  destruct (credits c) as [x |]; cbn [credits_rejected].
  - pose proof (NumberFacts.positive_number_cases x) as Hpos.
    split.
    + intros (Hn & (y & Hy & Hfin) & Hg). injection Hy as <-.
      repeat split; trivial.
      * intros Hrej. apply Hrej. now apply NumberFacts.finite_is_positive.
      * intros Hinf. injection Hinf as ->. exact Hfin.
    + intros ((Hn & Hc & Hg) & Hinf). repeat split; trivial.
      exists x. split; [reflexivity |].
      assert (Hp : positive_number x).
      { unfold positive_number in *.
        destruct (Prim2SF x) as [s | s | | s m e]; try destruct s; tauto. }
      apply Hpos in Hp. destruct Hp as [Hfin | ->]; [exact Hfin | congruence].
  - split.
    + intros (_ & (y & Hy & _) & _). discriminate.
    + intros ((_ & Hc & _) & _). tauto.
Qed.

Lemma JSON_stringify_app cs cs' :
  JSON_stringify (cs ++ cs') = (JSON_stringify cs ++ JSON_stringify cs')%list.
Proof. apply map_app. Qed.

(** Writing and reading back changes nothing in a sequence of courses of
    the data model. *)
Lemma JSON_roundtrip_valid cs :
  Forall Course_valid cs -> JSON_parse (JSON_stringify cs) = cs.
Proof.
  unfold JSON_parse, JSON_stringify.
  induction 1 as [| c cs (_ & (x & Hx & Hfin) & _) _ IH]; [reflexivity |].
  cbn [map]. rewrite IH. f_equal.
  destruct c as [n v g]. cbn in *. subst v.
  now rewrite NumberFacts.roundtrip_finite_positive.
Qed.

(** JSON gives back the credits of a course exactly when they are [null]
    or a finite number other than [-0]. *)
Lemma roundtrip_value_fixed_iff c :
  JSON.roundtrip_value (credits c) = credits c <-> credits_kept c.
Proof.
  unfold credits_kept, JSON.roundtrip_value.
  destruct (credits c) as [x |]; [| tauto].
  destruct (Prim2SF x) as [s | s | | s m e] eqn:Hx.
  - destruct s; split; try tauto.
    + intros Heq. injection Heq as <-. discriminate Hx.
    + intros _. f_equal. apply Prim2SF_inj. now rewrite Hx.
  - split; [discriminate | tauto].
  - split; [discriminate | tauto].
  - tauto.
Qed.

(** Writing a sequence and reading it back gives the same sequence exactly
    when JSON keeps the credits of each of its courses. *)
Lemma JSON_roundtrip_iff cs :
  JSON_parse (JSON_stringify cs) = cs <-> Forall credits_kept cs.
Proof.
  unfold JSON_parse, JSON_stringify.
  induction cs as [| c cs IH]; [split; [constructor | reflexivity] |].
  cbn [map]. split.
  - intros Heq. injection Heq as Hhead Htail. constructor; [| now apply IH].
    apply roundtrip_value_fixed_iff.
    destruct c as [n v g]. cbn [name credits grade] in *.
    now injection Hhead.
  - intros Hall. inversion Hall as [| ? ? Hhead Htail]; subst.
    rewrite (proj2 IH Htail). apply roundtrip_value_fixed_iff in Hhead.
    destruct c as [n v g]. cbn [name credits grade] in *. now rewrite Hhead.
Qed.

Lemma Course_valid_kept c : Course_valid c -> credits_kept c.
Proof.
  intros (_ & (x & Hx & Hfin) & _). unfold credits_kept, finite_positive in *.
  rewrite Hx. destruct (Prim2SF x) as [s | s | | s m e]; try destruct s; tauto.
Qed.

(** C6, as stated, fails.  The insertion handler accepts credits of
    Infinity; after it, adding the valid course CS101 and loading from
    the storage gives the earlier course with credits [null], not the
    sequence held in memory with CS101 appended. *)
Lemma addCourse_then_load_after_infinite_credits :
  Course_valid cs101
  /\ courses (exec (GPAUI.addCourseHandler "A" "Infinity" "4.0") (constructor None))
     = [mkCourse "A" (JS.Num JS.Infinity) "4.0"]
  /\ courses (exec (addCourse cs101)
                   (exec (GPAUI.addCourseHandler "A" "Infinity" "4.0")
                         (constructor None)))
     = [mkCourse "A" (JS.Num JS.Infinity) "4.0"; cs101]
  /\ loadFromStorage
       (localStorage
          (exec (addCourse cs101)
                (exec (GPAUI.addCourseHandler "A" "Infinity" "4.0")
                      (constructor None))))
     = [mkCourse "A" JS.Null "4.0"; cs101]
  /\ loadFromStorage
       (localStorage
          (exec (addCourse cs101)
                (exec (GPAUI.addCourseHandler "A" "Infinity" "4.0")
                      (constructor None))))
     <> (courses (exec (GPAUI.addCourseHandler "A" "Infinity" "4.0")
                       (constructor None)) ++ [cs101])%list.
Proof.
  split.
  { split; [discriminate |].
    split; [exists 3%float; split; [reflexivity | exact I] | cbn; tauto]. }
  split; [vm_compute; reflexivity |].
  split; [vm_compute; reflexivity |].
  split; [vm_compute; reflexivity |].
  vm_compute. discriminate.
Qed.

(** C6, amended: for a valid course [c] and any store, loading from the
    storage after [addCourse c], as a new data layer does, gives the
    earlier courses as JSON writes them, with [c] itself appended.  This
    is the sequence held in memory, the earlier one with [c] appended,
    exactly when the credits of every earlier course are [null] or a
    finite number other than [-0]; so it is for earlier courses of the
    data model, and from an empty sequence it gives exactly [[c]]. *)
Theorem addCourse_then_load st c :
  Course_valid c ->
  let storage := localStorage (exec (addCourse c) st) in
  let loaded := courses (constructor storage) in
  loaded = loadFromStorage storage
  /\ loaded = (JSON_parse (JSON_stringify (courses st)) ++ [c])%list
  /\ courses (exec (addCourse c) st) = (courses st ++ [c])%list
  /\ (loaded = (courses st ++ [c])%list <-> Forall credits_kept (courses st))
  /\ (Forall Course_valid (courses st) -> loaded = (courses st ++ [c])%list)
  /\ (courses st = [] -> loaded = [c]).
Proof.
  intros Hc storage loaded.
  assert (Hload : loaded = (JSON_parse (JSON_stringify (courses st)) ++ [c])%list).
  { subst loaded storage. unfold exec. rewrite DataLayerFacts.addCourse_runs.
    cbn [localStorage constructor courses loadFromStorage].
    unfold JSON_parse. rewrite JSON_stringify_app. f_equal.
    apply (proj2 (JSON_roundtrip_iff [c])).
    constructor; [now apply Course_valid_kept | constructor]. }
  assert (Hiff : loaded = (courses st ++ [c])%list <-> Forall credits_kept (courses st)).
  { rewrite Hload, <- JSON_roundtrip_iff. split.
    - apply app_inv_tail.
    - now intros ->. }
  split; [reflexivity |].
  split; [exact Hload |].
  split; [reflexivity |].
  split; [exact Hiff |].
  split.
  - intros Hst. apply Hiff. apply Forall_forall. intros c' Hin.
    apply Course_valid_kept. revert c' Hin. now apply Forall_forall.
  - intros Hnil. rewrite Hload, Hnil. reflexivity.
Qed.

(** C9, as stated, fails.  [addCourse] stores a record that fails all three
    tests.  And through the validating handler a record with credits
    [Infinity] enters the store; it is saved as [null], and a data layer
    constructed over that storage holds a record that fails validation. *)
Lemma addCourse_stores_unvalidated :
  (courses (exec (addCourse (mkCourse "" (JS.Num (-1)) "9.9")) (constructor None))
   = [mkCourse "" (JS.Num (-1)) "9.9"]
   /\ GPAProcessor.validateCourse "" (JS.Num (-1)) "9.9"
      = [nameMessage; creditsMessage; gradeMessage]
   /\ ~ valid_store (exec (addCourse (mkCourse "" (JS.Num (-1)) "9.9"))
                          (constructor None)))
  /\ (courses (exec (GPAUI.addCourseHandler "CS101" "Infinity" "4.0")
                    (constructor None))
      = [mkCourse "CS101" (JS.Num JS.Infinity) "4.0"]
      /\ ~ finite_positive JS.Infinity
      /\ courses (constructor
                    (localStorage
                       (exec (GPAUI.addCourseHandler "CS101" "Infinity" "4.0")
                             (constructor None))))
         = [mkCourse "CS101" JS.Null "4.0"]
      /\ GPAProcessor.validateCourse "CS101" JS.Null "4.0" = [creditsMessage]).
Proof.
  split.
  - split; [reflexivity | split; [reflexivity |]].
    intros Hvalid. inversion Hvalid as [| c cs Hbad _]. discriminate Hbad.
  - split; [vm_compute; reflexivity | split; [cbn; tauto |]].
    split; vm_compute; reflexivity.
Qed.

Lemma valid_store_empty : valid_store (constructor None).
Proof. constructor. Qed.

Lemma exec_addCourse_courses c st :
  courses (exec (addCourse c) st) = (courses st ++ [c])%list.
Proof. reflexivity. Qed.

Lemma exec_removeCourse_courses index st :
  courses (exec (removeCourse index) st) = JS.splice1 index (courses st).
Proof. reflexivity. Qed.

(** C9, amended: validation guards the insertion handler, not the data
    layer.  From a store whose records all pass [validateCourse],
    [addCourseHandler], [removeCourse], [clearAllCourses] and
    [saveToStorage] lead to such a store again; [addCourse] stores its
    argument as it is, so it does exactly when the argument passes; and a
    data layer constructed over what was saved holds passing records
    again when no credits is [+Infinity]. *)
Theorem valid_store_preserved st :
  valid_store st ->
  (forall nameValue creditsValue gradeValue,
      valid_store (exec (GPAUI.addCourseHandler nameValue creditsValue gradeValue) st))
  /\ (forall index, valid_store (exec (removeCourse index) st))
  /\ valid_store (exec clearAllCourses st)
  /\ valid_store (exec saveToStorage st)
  /\ (forall c, valid_store (exec (addCourse c) st) <-> passes_validation c)
  /\ (Forall (fun c => credits c <> JS.Num JS.Infinity) (courses st) ->
      valid_store (constructor (localStorage (exec saveToStorage st)))).
Proof.
  intros Hst. unfold valid_store in *.
  assert (Hadd : forall c, Forall passes_validation (courses (exec (addCourse c) st))
                           <-> passes_validation c).
  { intros c. rewrite exec_addCourse_courses, Forall_app. split.
    - intros [_ Hc]. now inversion Hc.
    - intros Hc. split; [exact Hst | now constructor]. }
  split; [| split; [| split; [| split; [| split]]]].
  - intros nameValue creditsValue gradeValue. unfold GPAUI.addCourseHandler.
    destruct (GPAProcessor.validateCourse (JS.trim nameValue)
                (JS.Num (JS.parseFloat_string creditsValue)) gradeValue)
      as [| e errors] eqn:Herrors; cbn [List.length Nat.ltb Nat.leb].
    + apply Hadd. exact Herrors.
    + exact Hst.
  - intros index. rewrite exec_removeCourse_courses.
    apply Forall_forall. intros c Hin. apply splice1_incl in Hin.
    revert c Hin. now apply Forall_forall.
  - constructor.
  - exact Hst.
  - exact Hadd.
  - intros Hfin. cbn [exec saveToStorage setItem localStorage constructor
                        loadFromStorage courses].
    rewrite JSON_roundtrip_valid; [exact Hst |].
    apply Forall_forall. intros c Hin. apply Course_valid_iff. split.
    + revert c Hin. now apply Forall_forall.
    + revert c Hin. now apply Forall_forall.
Qed.

End StoreFacts.

(* ===================================================================== *)
(** ** Binary64 addition *)
(* ===================================================================== *)

Module Binary64Facts.

Lemma fexp_unfold x : fexp prec emax x = Z.max (x - 53) (-1074).
Proof. reflexivity. Qed.

Lemma iter_pos_nat {A} (f : A -> A) p x :
  iter_pos f p x = Nat.iter (Pos.to_nat p) f x.
Proof.
  revert x. induction p as [p IH | p IH |]; intros x; cbn [iter_pos].
  - rewrite !IH, Pos2Nat.inj_xI, <- Nat.iter_add, <- Nat.iter_succ_r.
    f_equal. lia.
  - rewrite !IH, Pos2Nat.inj_xO, <- Nat.iter_add. f_equal. lia.
  - reflexivity.
Qed.

(** One shift takes one binary digit off a mantissa of two digits or more. *)
Lemma shr_1_digits mrs p :
  shr_m mrs = Zpos p -> (1 < digits2_pos p)%positive ->
  exists p', shr_m (shr_1 mrs) = Zpos p'
             /\ digits2_pos p = Pos.succ (digits2_pos p').
Proof.
  destruct mrs as [m r s]. cbn [shr_m]. intros -> Hd.
  destruct p as [p | p |]; cbn in *.
  - now exists p.
  - now exists p.
  - lia.
Qed.

Lemma shr_iter_digits k mrs p :
  shr_m mrs = Zpos p -> (k < Pos.to_nat (digits2_pos p))%nat ->
  exists p', shr_m (Nat.iter k shr_1 mrs) = Zpos p'
             /\ Pos.to_nat (digits2_pos p') = (Pos.to_nat (digits2_pos p) - k)%nat.
Proof.
  intros Hm. induction k as [| k IH]; intros Hk.
  - exists p. split; [exact Hm | lia].
  - destruct IH as (q & Hq & Hdq); [lia |].
    cbn [Nat.iter].
    destruct (shr_1_digits _ q Hq) as (q' & Hq' & Hd'); [lia |].
    exists q'. split; [exact Hq' | lia].
Qed.

Lemma shr_m_of_loc m l : shr_m (shr_record_of_loc m l) = m.
Proof. destruct l as [| []]; reflexivity. Qed.

(** Shifting a positive mantissa to its format exponent leaves it positive. *)
Lemma shr_fexp_positive p e l :
  -1074 <= e ->
  exists p', shr_m (fst (shr_fexp prec emax (Zpos p) e l)) = Zpos p'
             /\ -1074 <= snd (shr_fexp prec emax (Zpos p) e l).
Proof.
  intros He. unfold shr_fexp, shr. rewrite fexp_unfold. cbn [Zdigits2].
  destruct (Z.max (Zpos (digits2_pos p) + e - 53) (-1074) - e) as [| n | n] eqn:Hn.
  - exists p. cbn [fst snd]. split; [apply shr_m_of_loc | exact He].
  - cbn [fst snd]. rewrite iter_pos_nat.
    destruct (shr_iter_digits (Pos.to_nat n) (shr_record_of_loc (Zpos p) l) p)
      as (p' & Hp' & _); [apply shr_m_of_loc | lia |].
    exists p'. split; [exact Hp' | lia].
  - exists p. cbn [fst snd]. split; [apply shr_m_of_loc | exact He].
Qed.

Lemma round_nearest_even_positive p l :
  exists p', round_nearest_even (Zpos p) l = Zpos p'.
Proof.
  destruct l as [| []]; cbn [round_nearest_even].
  - now exists p.
  - destruct (Z.even (Zpos p)); [now exists p | now exists (p + 1)%positive].
  - now exists p.
  - now exists (p + 1)%positive.
Qed.

Lemma binary_round_aux_positive p e l :
  -1074 <= e -> sf_positive (binary_round_aux prec emax false (Zpos p) e l).
Proof.
  intros He. unfold binary_round_aux.
  destruct (shr_fexp_positive p e l He) as (p1 & Hp1 & He1).
  destruct (shr_fexp prec emax (Zpos p) e l) as [mrs1 e1]. cbn [fst snd] in *.
  rewrite Hp1.
  destruct (round_nearest_even_positive p1 (loc_of_shr_record mrs1)) as (p2 & ->).
  destruct (shr_fexp_positive p2 e1 loc_Exact He1) as (p3 & Hp3 & _).
  destruct (shr_fexp prec emax (Zpos p2) e1 loc_Exact) as [mrs2 e2].
  cbn [fst snd] in *. rewrite Hp3.
  now destruct (e2 <=? emax - prec).
Qed.

Lemma binary_round_positive p e :
  -1074 <= e -> sf_positive (binary_round prec emax false p e).
Proof.
  intros He. unfold binary_round, shl_align. rewrite fexp_unfold.
  destruct (Z.max (Zpos (digits2_pos p) + e - 53) (-1074) - e) eqn:Hn;
    apply binary_round_aux_positive; lia.
Qed.

Lemma valid_exponent s m e :
  valid_binary (S754_finite s m e) = true -> -1074 <= e.
Proof.
  cbn [valid_binary]. unfold bounded, canonical_mantissa.
  rewrite fexp_unfold. intros H. apply andb_true_iff in H as [H _].
  apply Z.eqb_eq in H. lia.
Qed.

(** The sum of two numbers above zero is above zero: it is not rounded
    down to zero, and it is not NaN. *)
Lemma SF64add_positive x y :
  valid_binary x = true -> valid_binary y = true ->
  sf_positive x -> sf_positive y -> sf_positive (SF64add x y).
Proof.
  destruct x as [sx | sx | | sx mx ex], y as [sy | sy | | sy my ey];
    try destruct sx; try destruct sy; cbn [sf_positive]; try tauto.
  intros Hx Hy _ _. apply valid_exponent in Hx, Hy.
  unfold SF64add, SFadd. cbn [cond_Zopp Z.add binary_normalize].
  apply binary_round_positive. lia.
Qed.

(** Adding to [+0] gives the other number. *)
Lemma SF64add_zero_l y :
  sf_positive y -> SF64add (S754_zero false) y = y.
Proof. destruct y as [s | s | | s m e]; try destruct s; cbn; tauto. Qed.

(** Binary64 addition is commutative. *)
Lemma SF64add_comm x y : SF64add x y = SF64add y x.
Proof.
  unfold SF64add, SFadd.
  destruct x as [sx | sx | | sx mx ex], y as [sy | sy | | sy my ey];
    try reflexivity; try (destruct sx, sy; reflexivity).
  rewrite (Z.min_comm ey ex). f_equal. apply Z.add_comm.
Qed.

(** Adding to the running total [+0] first makes the order of two summands
    irrelevant, whatever they are. *)
Lemma SF64add_from_zero_swap x y :
  SF64add (SF64add (S754_zero false) x) y
  = SF64add (SF64add (S754_zero false) y) x.
Proof.
  destruct x as [sx | sx | | sx mx ex], y as [sy | sy | | sy my ey];
    try reflexivity;
    try (destruct sx; reflexivity); try (destruct sy; reflexivity);
    try (destruct sx, sy; reflexivity).
  change (SF64add (S754_zero false) (S754_finite sx mx ex))
    with (S754_finite sx mx ex).
  change (SF64add (S754_zero false) (S754_finite sy my ey))
    with (S754_finite sy my ey).
  apply SF64add_comm.
Qed.

Lemma Pos_iter_shl p n : Pos.iter xO p n = shl p (Pos.to_nat n).
Proof. unfold shl. now rewrite Pos2Nat.inj_iter. Qed.

Lemma digits_shl p k :
  Zpos (digits2_pos (shl p k)) = Zpos (digits2_pos p) + Z.of_nat k.
Proof.
  induction k as [| k IH]; [cbn; lia |].
  change (shl p (S k)) with (xO (shl p k)). cbn [digits2_pos].
  rewrite Pos2Z.inj_succ, IH. lia.
Qed.

Lemma Zpos_shl p k : Zpos (shl p k) = Zpos p * 2 ^ Z.of_nat k.
Proof.
  induction k as [| k IH]; [cbn; lia |].
  change (shl p (S k)) with (xO (shl p k)).
  rewrite (Pos2Z.inj_xO (shl p k)), IH, Nat2Z.inj_succ, Z.pow_succ_r by lia.
  ring.
Qed.

Lemma shl_add p j k : shl (shl p j) k = shl p (k + j).
Proof. unfold shl. now rewrite Nat.iter_add. Qed.

(** Shifting out zero bits is exact. *)
Lemma shr_iter_exact p k :
  Nat.iter k shr_1 (Build_shr_record (Zpos (shl p k)) false false)
  = Build_shr_record (Zpos p) false false.
Proof.
  revert p. induction k as [| k IH]; intros p; [reflexivity |].
  rewrite Nat.iter_succ_r. unfold shl. rewrite Nat.iter_succ.
  cbn [shr_1 orb]. apply IH.
Qed.

(** A mantissa of 53 bits at an exponent of the format needs no shift. *)
Lemma shr_fexp_canonical m t :
  Zpos (digits2_pos m) = 53 -> -1074 <= t ->
  shr_fexp prec emax (Zpos m) t loc_Exact
  = (Build_shr_record (Zpos m) false false, t).
Proof.
  intros Hd Ht. unfold shr_fexp. rewrite fexp_unfold. cbn [Zdigits2]. rewrite Hd.
  replace (Z.max (53 + t - 53) (-1074) - t) with 0 by lia. reflexivity.
Qed.

(** The last step of rounding, on such a mantissa. *)
Lemma round_tail_canonical m t :
  Zpos (digits2_pos m) = 53 -> -1074 <= t <= 971 ->
  (let '(mrs, e) := shr_fexp prec emax (Zpos m) t loc_Exact in
   match shr_m mrs with
   | Z0 => S754_zero false
   | Zpos m' => if e <=? emax - prec then S754_finite false m' e
                else S754_infinity false
   | Zneg _ => S754_nan
   end) = S754_finite false m t.
Proof.
  intros Hd Ht. rewrite shr_fexp_canonical by lia. cbn [shr_m].
  replace (t <=? emax - prec) with true; [reflexivity |].
  symmetry. apply Z.leb_le. change (emax - prec) with 971. lia.
Qed.

Lemma binary_round_aux_canonical m t :
  Zpos (digits2_pos m) = 53 -> -1074 <= t <= 971 ->
  binary_round_aux prec emax false (Zpos m) t loc_Exact = S754_finite false m t.
Proof.
  intros Hd Ht. unfold binary_round_aux. rewrite shr_fexp_canonical by lia.
  cbn [shr_m loc_of_shr_record round_nearest_even].
  now apply round_tail_canonical.
Qed.

(** Rounding [p * 2^k] at exponent [E - k], for [p] of at most 53 bits:
    the canonical form of [p * 2^E]. *)
Lemma binary_round_scaled p k E :
  Zpos (digits2_pos p) <= 53 ->
  -1074 <= E + Zpos (digits2_pos p) - 53 <= 971 ->
  binary_round prec emax false (shl p k) (E - Z.of_nat k)
  = S754_finite false (shl p (Z.to_nat (53 - Zpos (digits2_pos p))))
                      (E + Zpos (digits2_pos p) - 53).
Proof.
  intros Hd Ht. set (d := Zpos (digits2_pos p)) in *.
  unfold binary_round. rewrite fexp_unfold, digits_shl. fold d.
  replace (Z.max (d + Z.of_nat k + (E - Z.of_nat k) - 53) (-1074))
    with (E + d - 53) by lia.
  unfold shl_align.
  destruct (E + d - 53 - (E - Z.of_nat k)) as [| n | n] eqn:Hn.
  - (* already canonical *)
    replace (Z.to_nat (53 - d)) with k by lia.
    replace (E - Z.of_nat k) with (E + d - 53) by lia.
    apply binary_round_aux_canonical; [rewrite digits_shl; fold d; lia | lia].
  - (* more zero bits than needed: they are shifted out *)
    unfold binary_round_aux.
    assert (Hshr : shr_fexp prec emax (Zpos (shl p k)) (E - Z.of_nat k) loc_Exact
                   = (Build_shr_record (Zpos (shl p (Z.to_nat (53 - d)))) false false,
                      E + d - 53)).
    { unfold shr_fexp. rewrite fexp_unfold. cbn [Zdigits2]. rewrite digits_shl. fold d.
      replace (Z.max (d + Z.of_nat k + (E - Z.of_nat k) - 53) (-1074) - (E - Z.of_nat k))
        with (Zpos n) by lia.
      unfold shr. rewrite iter_pos_nat. cbn [shr_record_of_loc].
      replace k with (Pos.to_nat n + Z.to_nat (53 - d))%nat by lia.
      rewrite <- shl_add, shr_iter_exact. f_equal. lia. }
    rewrite Hshr. cbn [shr_m loc_of_shr_record round_nearest_even].
    apply round_tail_canonical; [rewrite digits_shl; fold d; lia | lia].
  - (* fewer: more are appended *)
    rewrite Pos_iter_shl, shl_add.
    replace (Pos.to_nat n + k)%nat with (Z.to_nat (53 - d)) by lia.
    apply binary_round_aux_canonical; [rewrite digits_shl; fold d; lia | lia].
Qed.

Lemma digits_bounds p :
  2 ^ (Zpos (digits2_pos p) - 1) <= Zpos p < 2 ^ Zpos (digits2_pos p).
Proof.
  induction p as [p IH | p IH |]; cbn [digits2_pos]; [| | cbn; lia].
  - rewrite Pos2Z.inj_succ, (Pos2Z.inj_xI p).
    replace (Z.succ (Zpos (digits2_pos p)) - 1)
      with (Z.succ (Zpos (digits2_pos p) - 1)) by lia.
    rewrite !Z.pow_succ_r by lia. lia.
  - rewrite Pos2Z.inj_succ, (Pos2Z.inj_xO p).
    replace (Z.succ (Zpos (digits2_pos p)) - 1)
      with (Z.succ (Zpos (digits2_pos p) - 1)) by lia.
    rewrite !Z.pow_succ_r by lia. lia.
Qed.

Lemma digits_le_53 p : Zpos p < 2 ^ 53 -> Zpos (digits2_pos p) <= 53.
Proof.
  intros Hp. destruct (digits_bounds p) as [Hlo _].
  destruct (Z_le_gt_dec (Zpos (digits2_pos p)) 53) as [Hle | Hgt]; [exact Hle |].
  exfalso.
  assert (H : 2 ^ 53 <= 2 ^ (Zpos (digits2_pos p) - 1)) by (apply Z.pow_le_mono_r; lia).
  lia.
Qed.

Lemma valid_canonical p E :
  Zpos (digits2_pos p) <= 53 -> -1022 <= E <= 971 ->
  valid_binary (canonical p E) = true.
Proof.
  intros Hd HE. unfold canonical. cbn [valid_binary].
  unfold bounded, canonical_mantissa.
  rewrite fexp_unfold, digits_shl.
  apply andb_true_iff. split.
  - apply Z.eqb_eq. lia.
  - apply Z.leb_le. change (emax - prec) with 971. lia.
Qed.

Lemma shl_align_fst m ex ez :
  ez <= ex -> fst (shl_align m ex ez) = shl m (Z.to_nat (ex - ez)).
Proof.
  intros Hle. unfold shl_align.
  destruct (ez - ex) as [| n | n] eqn:Hn; cbn [fst].
  - replace (ex - ez) with 0 by lia. reflexivity.
  - lia.
  - rewrite Pos_iter_shl. f_equal. lia.
Qed.

(** Adding two such data is exact while the sum has at most 53 bits. *)
Lemma SF64add_canonical a b E :
  Zpos (a + b) < 2 ^ 53 -> -1022 <= E <= 971 ->
  SF64add (canonical a E) (canonical b E) = canonical (a + b) E.
Proof.
  intros Hsum HE.
  assert (Ha : Zpos (digits2_pos a) <= 53) by (apply digits_le_53; lia).
  assert (Hb : Zpos (digits2_pos b) <= 53) by (apply digits_le_53; lia).
  assert (Hab : Zpos (digits2_pos (a + b)) <= 53) by (apply digits_le_53; lia).
  set (da := Zpos (digits2_pos a)) in *. set (db := Zpos (digits2_pos b)) in *.
  change (canonical a E)
    with (S754_finite false (shl a (Z.to_nat (53 - da))) (E + da - 53)).
  change (canonical b E)
    with (S754_finite false (shl b (Z.to_nat (53 - db))) (E + db - 53)).
  unfold SF64add, SFadd.
  set (ez := Z.min (E + da - 53) (E + db - 53)).
  rewrite !shl_align_fst by lia. rewrite !shl_add.
  cbn [cond_Zopp]. rewrite <- Pos2Z.inj_add. cbn [binary_normalize].
  set (k := Z.to_nat (E - ez)).
  assert (Hs : (shl a (Z.to_nat (E + da - 53 - ez) + Z.to_nat (53 - da))
                + shl b (Z.to_nat (E + db - 53 - ez) + Z.to_nat (53 - db)))%positive
               = shl (a + b) k).
  { apply Pos2Z.inj. rewrite Pos2Z.inj_add, !Zpos_shl, Pos2Z.inj_add.
    replace (Z.of_nat (Z.to_nat (E + da - 53 - ez) + Z.to_nat (53 - da)))
      with (Z.of_nat k) by lia.
    replace (Z.of_nat (Z.to_nat (E + db - 53 - ez) + Z.to_nat (53 - db)))
      with (Z.of_nat k) by lia.
    ring. }
  rewrite Hs. replace ez with (E - Z.of_nat k) by lia.
  apply binary_round_scaled; [exact Hab |].
  pose proof (Pos2Z.is_pos (digits2_pos (a + b))). lia.
Qed.

Lemma binary_normalize_canonical n E :
  Zpos n < 2 ^ 53 -> -1022 <= E <= 971 ->
  binary_normalize prec emax (Zpos n) E false = canonical n E.
Proof.
  intros Hn HE. cbn [binary_normalize].
  pose proof (binary_round_scaled n 0 E) as H. cbn [shl Nat.iter Z.of_nat] in H.
  rewrite Z.sub_0_r in H. apply H; [now apply digits_le_53 |].
  pose proof (digits_le_53 n Hn). pose proof (Pos2Z.is_pos (digits2_pos n)). lia.
Qed.

End Binary64Facts.

Module SumFacts.

Lemma positive_number_sf x : positive_number x <-> sf_positive (Prim2SF x).
Proof. reflexivity. Qed.

Lemma add_positive x y :
  positive_number x -> positive_number y -> positive_number (x + y).
Proof.
  rewrite !positive_number_sf, add_spec.
  apply Binary64Facts.SF64add_positive; apply Prim2SF_valid.
Qed.

Lemma add_zero_positive y : positive_number y -> (0 + y)%float = y.
Proof.
  intros Hy. apply Prim2SF_inj. rewrite add_spec, NumberFacts.Prim2SF_zero.
  now apply Binary64Facts.SF64add_zero_l.
Qed.

Lemma add_comm x y : (x + y)%float = (y + x)%float.
Proof.
  apply Prim2SF_inj. rewrite !add_spec. apply Binary64Facts.SF64add_comm.
Qed.

Lemma add_from_zero_swap x y : (0 + x + y)%float = (0 + y + x)%float.
Proof.
  apply Prim2SF_inj. rewrite !add_spec, NumberFacts.Prim2SF_zero.
  apply Binary64Facts.SF64add_from_zero_swap.
Qed.

Lemma fold_add_positive xs acc :
  positive_number acc -> Forall positive_number xs ->
  positive_number (fold_left PrimFloat.add xs acc).
Proof.
  revert acc. induction xs as [| x xs IH]; intros acc Hacc Hxs; [exact Hacc |].
  inversion Hxs as [| ? ? Hx Hrest]; subst. cbn [fold_left].
  apply IH; [now apply add_positive | exact Hrest].
Qed.

(** A non-empty sum of numbers above zero is above zero. *)
Lemma sum_floats_positive xs :
  xs <> [] -> Forall positive_number xs -> positive_number (sum_floats xs).
Proof.
  destruct xs as [| x xs]; [congruence |]. intros _ Hxs.
  inversion Hxs as [| ? ? Hx Hrest]; subst.
  unfold sum_floats. cbn [fold_left]. rewrite add_zero_positive by exact Hx.
  now apply fold_add_positive.
Qed.

Lemma Prim2SF_of_dyadic n E :
  Zpos n < 2 ^ 53 -> -1022 <= E <= 971 ->
  Prim2SF (of_dyadic n E) = canonical n E.
Proof.
  intros Hn HE. unfold of_dyadic.
  rewrite Binary64Facts.binary_normalize_canonical by assumption.
  apply Prim2SF_SF2Prim, Binary64Facts.valid_canonical;
    [now apply Binary64Facts.digits_le_53 | exact HE].
Qed.

Lemma add_of_dyadic a b E :
  Zpos (a + b) < 2 ^ 53 -> -1022 <= E <= 971 ->
  (of_dyadic a E + of_dyadic b E)%float = of_dyadic (a + b) E.
Proof.
  intros Hsum HE. apply Prim2SF_inj.
  rewrite add_spec, !Prim2SF_of_dyadic by lia.
  now apply Binary64Facts.SF64add_canonical.
Qed.

Lemma units_total_nonneg ns : 0 <= units_total ns.
Proof. induction ns; cbn [units_total]; lia. Qed.

Lemma fold_add_of_dyadic E ns a :
  -1022 <= E <= 971 -> Zpos a + units_total ns < 2 ^ 53 ->
  fold_left PrimFloat.add (map (fun n => of_dyadic n E) ns) (of_dyadic a E)
  = of_dyadic (Z.to_pos (Zpos a + units_total ns)) E.
Proof.
  intros HE. revert a.
  induction ns as [| n ns IH]; intros a Hsum;
    cbn [units_total map fold_left] in *.
  - now rewrite Z.add_0_r.
  - pose proof (units_total_nonneg ns).
    rewrite add_of_dyadic by lia. rewrite IH by lia. f_equal. lia.
Qed.

Lemma of_dyadic_positive n E :
  Zpos n < 2 ^ 53 -> -1022 <= E <= 971 -> positive_number (of_dyadic n E).
Proof.
  intros Hn HE. unfold positive_number.
  now rewrite Prim2SF_of_dyadic by assumption.
Qed.

Lemma units_total_perm ns ns' :
  Permutation ns ns' -> units_total ns = units_total ns'.
Proof.
  induction 1 as [| n ns ns' _ IH | n m ns | ns1 ns2 ns3 _ IH1 _ IH2];
    cbn [units_total]; lia.
Qed.

(** A sum of whole numbers of units of [2^E] is exact while the units add up
    to less than [2^53]. *)
Lemma sum_floats_of_dyadic E ns :
  -1022 <= E <= 971 -> ns <> [] -> units_total ns < 2 ^ 53 ->
  sum_floats (map (fun n => of_dyadic n E) ns)
  = of_dyadic (Z.to_pos (units_total ns)) E.
Proof.
  intros HE Hne Hsum. destruct ns as [| n ns]; [congruence |].
  cbn [units_total] in *. pose proof (units_total_nonneg ns).
  unfold sum_floats. cbn [map fold_left].
  rewrite add_zero_positive by (apply of_dyadic_positive; lia).
  now apply fold_add_of_dyadic.
Qed.

End SumFacts.

(* ===================================================================== *)
(** ** The aggregate *)
(* ===================================================================== *)

Module CalculateFacts.

Import GPAProcessor.

(** The two running totals of the loop are two separate sums. *)
Lemma fold_accumulate cs tc tp :
  fold_left accumulate cs (tc, tp) =
  (fold_left PrimFloat.add (map creditsNumber cs) tc,
   fold_left PrimFloat.add
     (map (fun c => creditsNumber c * JS.parseFloat_string (grade c))%float cs) tp).
Proof.
  revert tc tp. induction cs as [| c cs IH]; intros tc tp; [reflexivity |].
  cbn [fold_left map]. unfold accumulate at 2. apply IH.
Qed.


Lemma credits_above_zero_read cs :
  Forall credits_above_zero cs ->
  map creditsNumber cs = map (fun c => JS.ToNumber (credits c)) cs
  /\ Forall positive_number (map creditsNumber cs).
Proof.
  induction 1 as [| c cs (x & Hx & Hpos) _ [IHmap IHpos]]; [now split |].
  cbn [map]. unfold creditsNumber at 1 3. rewrite Hx.
  rewrite NumberFacts.parseFloat_positive by exact Hpos.
  split; [now rewrite IHmap | now constructor].
Qed.

Section Calculate.

Variable toString_large : float -> string.

(** C2: on the empty sequence the result is the record of four zeros;
    [gpa] and [totalPoints] are the number 0 there, not a string, and the
    call returns. *)
Theorem calculateGPA_empty :
  GPAProcessor.calculateGPA toString_large []
  = mkResult (JS.NumberValue 0) 0 (JS.NumberValue 0) 0.
Proof. reflexivity. Qed.


Lemma calculateGPA_totalCredits cs :
  totalCredits (GPAProcessor.calculateGPA toString_large cs)
  = sum_floats (map creditsNumber cs).
Proof.
  unfold GPAProcessor.calculateGPA. destruct cs as [| c cs]; [reflexivity |].
  cbn [List.length Nat.eqb]. now rewrite fold_accumulate.
Qed.

(** With credits that are whole numbers of units of [2^E], fewer than
    [2^53] in all, [totalCredits] is the exact total. *)
Lemma totalCredits_of_units E (units : Course -> positive) cs :
  -1022 <= E <= 971 ->
  cs <> [] ->
  (forall c, In c cs -> credits c = JS.Num (of_dyadic (units c) E)) ->
  units_total (map units cs) < 2 ^ 53 ->
  totalCredits (GPAProcessor.calculateGPA toString_large cs)
  = of_dyadic (Z.to_pos (units_total (map units cs))) E.
Proof.
  intros HE Hne Hunits Hsum. rewrite calculateGPA_totalCredits.
  assert (Hmap : map creditsNumber cs = map (fun n => of_dyadic n E) (map units cs)).
  { rewrite map_map. clear Hne.
    induction cs as [| c cs IH]; [reflexivity |].
    cbn [map units_total] in *. pose proof (SumFacts.units_total_nonneg (map units cs)).
    rewrite IH; [| intros c' Hin; apply Hunits; now right | lia].
    f_equal. unfold creditsNumber. rewrite (Hunits c) by now left.
    apply NumberFacts.parseFloat_positive, SumFacts.of_dyadic_positive; lia. }
  rewrite Hmap. apply SumFacts.sum_floats_of_dyadic; trivial.
  destruct cs; [congruence | discriminate].
Qed.


Lemma calculateGPA_courseCount cs :
  courseCount (GPAProcessor.calculateGPA toString_large cs) = List.length cs.
Proof.
  unfold GPAProcessor.calculateGPA. destruct cs as [| c cs]; [reflexivity |].
  cbn [List.length Nat.eqb].
  now destruct (fold_left accumulate (c :: cs) (0%float, 0%float)).
Qed.

Lemma calculateGPA_swap a b :
  GPAProcessor.calculateGPA toString_large [a; b]
  = GPAProcessor.calculateGPA toString_large [b; a].
Proof.
  unfold GPAProcessor.calculateGPA. cbn [List.length Nat.eqb].
  rewrite !fold_accumulate. cbn [map fold_left].
  rewrite (SumFacts.add_from_zero_swap (creditsNumber a) (creditsNumber b)).
  rewrite (SumFacts.add_from_zero_swap
             (creditsNumber a * JS.parseFloat_string (grade a))
             (creditsNumber b * JS.parseFloat_string (grade b))).
  reflexivity.
Qed.

(** C7, amended: on a permutation of its input [calculateGPA] returns
    the same [courseCount]; the same whole result when the sequence has at
    most two courses; and the same [totalCredits] when the credits are
    whole numbers of units of one power of two (ones, halves, quarters)
    with fewer than [2^53] units in all.  Beyond that the totals are
    binary64 sums taken from left to right, which may depend on the order. *)
Theorem calculateGPA_permutation cs cs' :
  Permutation cs cs' ->
  courseCount (GPAProcessor.calculateGPA toString_large cs)
  = courseCount (GPAProcessor.calculateGPA toString_large cs')
  /\ ((List.length cs <= 2)%nat ->
      GPAProcessor.calculateGPA toString_large cs
      = GPAProcessor.calculateGPA toString_large cs')
  /\ (forall E (units : Course -> positive),
         -1022 <= E <= 971 ->
         (forall c, In c cs -> credits c = JS.Num (of_dyadic (units c) E)) ->
         units_total (map units cs) < 2 ^ 53 ->
         totalCredits (GPAProcessor.calculateGPA toString_large cs)
         = totalCredits (GPAProcessor.calculateGPA toString_large cs')).
Proof.
  intros Hperm. split; [| split].
  - rewrite !calculateGPA_courseCount. now apply Permutation_length.
  - intros Hlen. destruct cs as [| a [| b [| c cs]]].
    + apply Permutation_nil in Hperm. now subst.
    + apply Permutation_length_1_inv in Hperm. now subst.
    + apply Permutation_length_2_inv in Hperm.
      destruct Hperm as [-> | ->]; [reflexivity | apply calculateGPA_swap].
    + cbn [List.length] in Hlen. lia.
  - intros E units HE Hunits Hsum.
    destruct cs as [| c cs].
    { apply Permutation_nil in Hperm. now subst. }
    assert (Hne' : cs' <> []).
    { intros ->. apply Permutation_sym, Permutation_nil in Hperm. discriminate. }
    assert (Htotal : units_total (map units (c :: cs)) = units_total (map units cs')).
    { apply SumFacts.units_total_perm. now apply Permutation_map. }
    rewrite (totalCredits_of_units E units (c :: cs)); trivial; [| discriminate].
    rewrite (totalCredits_of_units E units cs'); trivial.
    + now rewrite Htotal.
    + intros c' Hin. apply Hunits.
      now apply (Permutation_in c' (Permutation_sym Hperm)).
    + now rewrite <- Htotal.
Qed.

End Calculate.

(** C7, as stated, fails: three courses of 0.1, 0.2 and 0.3 credits total
    0.6000000000000001 credits in this order and 0.6 in the reverse order. *)
Lemma calculateGPA_order_matters :
  Permutation
    [mkCourse "A" (JS.Num 0.1) "4.0"; mkCourse "B" (JS.Num 0.2) "4.0";
     mkCourse "C" (JS.Num 0.3) "4.0"]
    [mkCourse "C" (JS.Num 0.3) "4.0"; mkCourse "B" (JS.Num 0.2) "4.0";
     mkCourse "A" (JS.Num 0.1) "4.0"]
  /\ (forall toString_large,
         totalCredits
           (GPAProcessor.calculateGPA toString_large
              [mkCourse "A" (JS.Num 0.1) "4.0"; mkCourse "B" (JS.Num 0.2) "4.0";
               mkCourse "C" (JS.Num 0.3) "4.0"])
         = 0.6000000000000001%float
         /\ totalCredits
              (GPAProcessor.calculateGPA toString_large
                 [mkCourse "C" (JS.Num 0.3) "4.0"; mkCourse "B" (JS.Num 0.2) "4.0";
                  mkCourse "A" (JS.Num 0.1) "4.0"])
            = 0.6%float
         /\ GPAProcessor.calculateGPA toString_large
              [mkCourse "A" (JS.Num 0.1) "4.0"; mkCourse "B" (JS.Num 0.2) "4.0";
               mkCourse "C" (JS.Num 0.3) "4.0"]
            <> GPAProcessor.calculateGPA toString_large
                 [mkCourse "C" (JS.Num 0.3) "4.0"; mkCourse "B" (JS.Num 0.2) "4.0";
                  mkCourse "A" (JS.Num 0.1) "4.0"]).
Proof.
  split.
  - exact (Permutation_rev
             [mkCourse "A" (JS.Num 0.1) "4.0"; mkCourse "B" (JS.Num 0.2) "4.0";
              mkCourse "C" (JS.Num 0.3) "4.0"]).
  - intros toString_large.
    split; [vm_compute; reflexivity | split; [vm_compute; reflexivity |]].
    intros Heq. apply (f_equal totalCredits) in Heq.
    apply (f_equal Prim2SF) in Heq. vm_compute in Heq. discriminate Heq.
Qed.

End CalculateFacts.

(* ===================================================================== *)
(** ** The theorems at concrete inputs *)
(* ===================================================================== *)

(** Index 5 on a store of one course. *)
Lemma removeCourse_out_of_bounds_at_5 :
  (GPADataLayer.courses (GPADataLayer.mkState [cs101] None) = []
   \/ Z.of_nat (List.length (GPADataLayer.courses (GPADataLayer.mkState [cs101] None))) <= 5)
  /\ GPADataLayer.removeCourse 5 (GPADataLayer.mkState [cs101] None)
     = GPADataLayer.Normal tt (GPADataLayer.mkState [cs101] (Some [cs101])).
Proof.
  split.
  - right. cbn. lia.
  - apply (DataLayerFacts.removeCourse_out_of_bounds (GPADataLayer.mkState [cs101] None) 5).
    right. cbn. lia.
Defined.

(** Index -1 on a store of two courses. *)
Lemma removeCourse_last_of_two :
  GPADataLayer.courses (GPADataLayer.mkState [cs101; math201] None) <> []
  /\ (- Z.of_nat (List.length (GPADataLayer.courses (GPADataLayer.mkState [cs101; math201] None)))
      <= -1 <= -1)
  /\ GPADataLayer.removeCourse (-1) (GPADataLayer.mkState [cs101; math201] None)
     = GPADataLayer.Normal tt (GPADataLayer.mkState [cs101] (Some [cs101])).
Proof.
  assert (H1 : GPADataLayer.courses (GPADataLayer.mkState [cs101; math201] None) <> [])
    by discriminate.
  assert (H2 : - Z.of_nat (List.length (GPADataLayer.courses
                                          (GPADataLayer.mkState [cs101; math201] None)))
               <= -1 <= -1) by (cbn; lia).
  split; [exact H1 | split; [exact H2 |]].
  exact (proj1 (DataLayerFacts.removeCourse_negative_index
                  (GPADataLayer.mkState [cs101; math201] None) (-1) H1 H2)).
Defined.

(** The first example course is a course of the data model. *)
Lemma Course_valid_cs101 : Course_valid cs101.
Proof.
  split; [discriminate | split].
  - exists 3%float. split; [reflexivity | exact I].
  - cbn. tauto.
Defined.

(** Adding it to an empty store and loading again. *)
Lemma addCourse_then_load_cs101 :
  Course_valid cs101
  /\ GPADataLayer.courses
       (GPADataLayer.constructor
          (GPADataLayer.localStorage
             (GPADataLayer.exec (GPADataLayer.addCourse cs101)
                                (GPADataLayer.constructor None))))
     = [cs101].
Proof.
  split; [exact Course_valid_cs101 |].
  exact (proj2 (proj2 (proj2 (proj2 (proj2
           (StoreFacts.addCourse_then_load
              (GPADataLayer.constructor None) cs101 Course_valid_cs101)))))
           eq_refl).
Defined.

(** The insertion handler on an empty store. *)
Lemma valid_store_after_handler :
  valid_store (GPADataLayer.constructor None)
  /\ valid_store
       (GPADataLayer.exec (GPAUI.addCourseHandler " CS101 " "3" "4.0")
                          (GPADataLayer.constructor None)).
Proof.
  split; [exact StoreFacts.valid_store_empty |].
  exact (proj1 (StoreFacts.valid_store_preserved (GPADataLayer.constructor None)
                  StoreFacts.valid_store_empty) " CS101 " "3" "4.0").
Defined.

(** Credits of -1. *)
Lemma creditsMessage_for_minus_one :
  (Prim2SF (-1)%float = S754_nan \/ ((-1) <=? 0)%float = true)
  /\ In creditsMessage (GPAProcessor.validateCourse "CS101" (JS.Num (-1)) "4.0").
Proof.
  assert (H : Prim2SF (-1)%float = S754_nan \/ ((-1) <=? 0)%float = true)
    by (right; reflexivity).
  split; [exact H |].
  exact (proj2 (proj2 (proj2 (CreditsFacts.creditsMessage_iff_not_above_zero
                                "CS101" (-1)%float "4.0"))) H).
Defined.

(** The token 3.7. *)
Lemma gradePoints_at_3_7 :
  In "3.7" tokens
  /\ exists v, JSObject.get GPAProcessor.gradePoints "3.7" = Some v
               /\ v = JS.parseFloat_string "3.7"
               /\ (0 <=? v)%float = true /\ (v <=? 4)%float = true.
Proof.
  assert (H : In "3.7" tokens) by (cbn; tauto).
  split; [exact H |].
  exact (proj1 (proj2 (proj2 (proj2 GradeFacts.gradePoints_defined_on_tokens_only)))
           "3.7" H).
Defined.


(** Three courses of 3, 4 and 1.5 credits, and the same in reverse order. *)
Lemma calculateGPA_three_courses_reversed :
  Permutation [cs101; math201; phys150] [phys150; math201; cs101]
  /\ totalCredits (GPAProcessor.calculateGPA no_large_numbers [cs101; math201; phys150])
     = totalCredits (GPAProcessor.calculateGPA no_large_numbers [phys150; math201; cs101])
  /\ courseCount (GPAProcessor.calculateGPA no_large_numbers [cs101; math201; phys150])
     = courseCount (GPAProcessor.calculateGPA no_large_numbers [phys150; math201; cs101]).
Proof.
  assert (Hperm : Permutation [cs101; math201; phys150] [phys150; math201; cs101])
    by exact (Permutation_rev [cs101; math201; phys150]).
  split; [exact Hperm |].
  destruct (CalculateFacts.calculateGPA_permutation no_large_numbers _ _ Hperm)
    as (Hcount & _ & Hunits).
  split; [| exact Hcount].
  apply (Hunits (-1) half_credits).
  - lia.
  - intros c [<- | [<- | [<- | []]]]; vm_compute; reflexivity.
  - vm_compute. reflexivity.
Defined.

(* ===================================================================== *)
(** ** Strings *)
(* ===================================================================== *)

Module StringFacts.


Lemma trimStart_startsClean s : startsClean (JS.trimStart s).
Proof.
  induction s as [| c s IH]; cbn [JS.trimStart]; [exact I |].
  destruct (JS.isWhiteSpace c) eqn:Hc; [exact IH | exact Hc].
Qed.

Lemma trimStart_fixed s : startsClean s -> JS.trimStart s = s.
Proof.
  destruct s as [| c s]; cbn [startsClean JS.trimStart]; [reflexivity |].
  now intros ->.
Qed.

Lemma trimEnd_startsClean s : startsClean s -> startsClean (JS.trimEnd s).
Proof.
  destruct s as [| c s]; cbn [startsClean JS.trimEnd]; [trivial |].
  intros Hc. rewrite Hc. now destruct (JS.trimEnd s).
Qed.

Lemma trimEnd_idempotent s : JS.trimEnd (JS.trimEnd s) = JS.trimEnd s.
Proof.
  induction s as [| c s IH]; [reflexivity |].
  cbn [JS.trimEnd]. destruct (JS.trimEnd s) as [| d t] eqn:Ht.
  - destruct (JS.isWhiteSpace c) eqn:Hc; [reflexivity |].
    cbn [JS.trimEnd]. now rewrite Hc.
  - cbn [JS.trimEnd] in *. now rewrite IH.
Qed.

Lemma trim_idempotent s : JS.trim (JS.trim s) = JS.trim s.
Proof.
  unfold JS.trim.
  rewrite (trimStart_fixed (JS.trimEnd (JS.trimStart s))).
  - apply trimEnd_idempotent.
  - apply trimEnd_startsClean, trimStart_startsClean.
Qed.

Lemma append_assoc (a b c : string) : (a ++ b) ++ c = a ++ (b ++ c).
Proof. induction a as [| x a IH]; cbn; [reflexivity | now rewrite IH]. Qed.

Lemma ForallChars_app P s t :
  ForallChars P (s ++ t) <-> ForallChars P s /\ ForallChars P t.
Proof. induction s as [| c s IH]; cbn [append ForallChars]; tauto. Qed.

Lemma string_length_app s t : String.length (s ++ t) = (String.length s + String.length t)%nat.
Proof. induction s as [| c s IH]; cbn [append String.length]; [reflexivity | now rewrite IH]. Qed.

(** Cutting a text in two at position [a]. *)
Lemma substring_cut s a :
  (a <= String.length s)%nat ->
  substring 0 a s ++ substring a (String.length s - a) s = s
  /\ String.length (substring 0 a s) = a
  /\ String.length (substring a (String.length s - a) s) = (String.length s - a)%nat.
Proof.
  revert a. induction s as [| c s IH]; intros a Ha.
  - cbn [String.length] in Ha. replace a with 0%nat by lia. now cbn.
  - destruct a as [| a].
    + cbn [substring append String.length Nat.sub].
      destruct (IH 0%nat) as (H1 & H2 & H3); [lia |].
      rewrite Nat.sub_0_r in *.
      assert (H0 : substring 0 0 s = EmptyString) by (destruct s; reflexivity).
      rewrite H0 in H1. cbn [append] in H1. rewrite H1.
      repeat split; cbn [String.length]; lia.
    + cbn [String.length] in Ha. destruct (IH a) as (H1 & H2 & H3); [lia |].
      cbn [substring append String.length Nat.sub]. rewrite H1, H2, H3.
      repeat split; lia.
Qed.

End StringFacts.

(* ===================================================================== *)
(** ** More on the data layer *)
(* ===================================================================== *)

Module RemovalFacts.

Import GPADataLayer.

Lemma nth_error_without_before {A} (l : list A) k j :
  (k < List.length l)%nat -> (j < k)%nat ->
  nth_error (without k l) j = nth_error l j.
Proof.
  intros Hk Hj. unfold without.
  rewrite nth_error_app1 by (rewrite length_firstn; lia).
  rewrite nth_error_firstn.
  destruct (Nat.ltb_spec j k); [reflexivity | lia].
Qed.

Lemma nth_error_without_after {A} (l : list A) k j :
  (k < List.length l)%nat -> (k <= j)%nat ->
  nth_error (without k l) j = nth_error l (S j).
Proof.
  intros Hk Hj. unfold without.
  rewrite nth_error_app2 by (rewrite length_firstn; lia).
  rewrite length_firstn, nth_error_skipn. f_equal. lia.
Qed.

(** X1: for an index inside the bounds, [removeCourse] removes exactly the
    course at that position: the courses before it keep their positions,
    the courses after it move up by one, and the shortened sequence is
    what is written to the storage. *)
Theorem removeCourse_in_range st index :
  0 <= index < Z.of_nat (List.length (courses st)) ->
  exists cs',
    removeCourse index st = Normal tt (mkState cs' (Some (JSON_stringify cs')))
    /\ List.length cs' = (List.length (courses st) - 1)%nat
    /\ (forall j, (j < Z.to_nat index)%nat ->
                  nth_error cs' j = nth_error (courses st) j)
    /\ (forall j, (Z.to_nat index <= j)%nat ->
                  nth_error cs' j = nth_error (courses st) (S j)).
Proof.
  intros Hin. exists (without (Z.to_nat index) (courses st)).
  split; [| split; [| split]].
  - rewrite DataLayerFacts.removeCourse_runs. now rewrite splice1_from_start.
  - apply without_length. lia.
  - intros j Hj. apply nth_error_without_before; lia.
  - intros j Hj. apply nth_error_without_after; lia.
Qed.

Lemma splice1_below_start {A} (l : list A) index :
  index < - Z.of_nat (List.length l) -> JS.splice1 index l = tl l.
Proof.
  intros Hlow. unfold JS.splice1, JS.actualStart.
  assert (Hneg : (index <? 0) = true) by (apply Z.ltb_lt; lia).
  rewrite Hneg, Z.max_r by lia. cbn [Z.to_nat firstn app Nat.add].
  rewrite Nat.sub_0_r. destruct l as [| a l]; reflexivity.
Qed.

(** X2: an index below [-length] is clamped to the start: on a store that
    is not empty, [removeCourse] then removes the first course, and only
    that one. *)
Theorem removeCourse_below_minus_length st index :
  index < - Z.of_nat (List.length (courses st)) ->
  removeCourse index st
  = Normal tt (mkState (tl (courses st)) (Some (JSON_stringify (tl (courses st)))))
  /\ (courses st <> [] ->
      List.length (tl (courses st)) = (List.length (courses st) - 1)%nat
      /\ forall j, nth_error (tl (courses st)) j = nth_error (courses st) (S j)).
Proof.
  intros Hlow. split.
  - rewrite DataLayerFacts.removeCourse_runs. now rewrite splice1_below_start.
  - intros Hne. destruct (courses st) as [| c cs]; [congruence |].
    cbn [tl List.length]. split; [lia | reflexivity].
Qed.

(** X3: [addCourse] appends: the courses already held keep their
    positions, the new course is the last one, and removing the last
    course again (by index [-1] or by its position) gives back the
    sequence held before, which is then what the storage holds. *)
Theorem addCourse_then_remove_last st c :
  (forall j, (j < List.length (courses st))%nat ->
             nth_error (courses (exec (addCourse c) st)) j = nth_error (courses st) j)
  /\ nth_error (courses (exec (addCourse c) st)) (List.length (courses st)) = Some c
  /\ List.length (courses (exec (addCourse c) st)) = S (List.length (courses st))
  /\ exec (removeCourse (-1)) (exec (addCourse c) st)
     = mkState (courses st) (Some (JSON_stringify (courses st)))
  /\ exec (removeCourse (Z.of_nat (List.length (courses st)))) (exec (addCourse c) st)
     = mkState (courses st) (Some (JSON_stringify (courses st))).
Proof.
  assert (Hwithout : without (List.length (courses st)) (courses st ++ [c]) = courses st).
  { unfold without. rewrite firstn_app, Nat.sub_diag, firstn_all. cbn [firstn].
    rewrite app_nil_r, skipn_all2; [apply app_nil_r |].
    rewrite length_app. cbn [List.length]. lia. }
  split; [| split; [| split; [| split]]].
  - intros j Hj. rewrite StoreFacts.exec_addCourse_courses. now apply nth_error_app1.
  - rewrite StoreFacts.exec_addCourse_courses, nth_error_app2, Nat.sub_diag by lia.
    reflexivity.
  - rewrite StoreFacts.exec_addCourse_courses, length_app. cbn [List.length]. lia.
  - unfold exec at 1. rewrite DataLayerFacts.removeCourse_runs.
    rewrite StoreFacts.exec_addCourse_courses.
    rewrite splice1_from_end by (rewrite length_app; cbn [List.length]; lia).
    replace (Z.to_nat (Z.of_nat (List.length (courses st ++ [c])) + -1))
      with (List.length (courses st)) by (rewrite length_app; cbn [List.length]; lia).
    now rewrite Hwithout.
  - unfold exec at 1. rewrite DataLayerFacts.removeCourse_runs.
    rewrite StoreFacts.exec_addCourse_courses.
    rewrite splice1_from_start by (rewrite length_app; cbn [List.length]; lia).
    rewrite Nat2Z.id. now rewrite Hwithout.
Qed.

End RemovalFacts.

(* ===================================================================== *)
(** ** Sessions: what the handlers keep true *)
(* ===================================================================== *)

Module SessionFacts.

Import GPADataLayer.

Lemma roundtrip_value_idempotent v :
  JSON.roundtrip_value (JSON.roundtrip_value v) = JSON.roundtrip_value v.
Proof.
  destruct v as [x |]; [| reflexivity]. cbn [JSON.roundtrip_value].
  destruct (Prim2SF x) as [s | s | | s m e] eqn:Hx; cbn [JSON.roundtrip_value];
    try reflexivity.
  now rewrite Hx.
Qed.

Lemma JSON_stringify_idempotent cs :
  JSON_stringify (JSON_stringify cs) = JSON_stringify cs.
Proof.
  unfold JSON_stringify. rewrite map_map. apply map_ext. intros c.
  cbn [name credits grade]. now rewrite roundtrip_value_idempotent.
Qed.

Lemma session_record_stringify c :
  session_record c ->
  session_record (mkCourse (name c) (JSON.roundtrip_value (credits c)) (grade c)).
Proof.
  intros (Hn & Hne & Hg & Hc). repeat split; cbn [name grade credits]; trivial.
  destruct Hc as [-> | (x & -> & Hx)]; [now left |].
  unfold JSON.roundtrip_value. unfold positive_number in Hx.
  destruct (Prim2SF x) as [s | s | | s m e] eqn:Hsf; try destruct s; try tauto.
  right. exists x. split; [reflexivity |]. unfold positive_number. now rewrite Hsf.
Qed.

Lemma session_record_unchanged c :
  session_record c -> credits c <> JS.Num JS.Infinity ->
  mkCourse (name c) (JSON.roundtrip_value (credits c)) (grade c) = c.
Proof.
  intros (_ & _ & _ & Hc) Hinf. destruct c as [n v g]. cbn [name credits grade] in *.
  f_equal. destruct Hc as [-> | (x & -> & Hx)]; [reflexivity |].
  apply NumberFacts.positive_number_cases in Hx. destruct Hx as [Hfin | ->].
  - now apply NumberFacts.roundtrip_finite_positive.
  - congruence.
Qed.

(** What a form submission does: nothing when a test fails, else the
    accepted record is appended and written through. *)
Lemma submit_cases n c g st :
  (GPAProcessor.validateCourse (JS.trim n) (JS.Num (JS.parseFloat_string c)) g <> []
   /\ exec (GPAUI.addCourseHandler n c g) st = st)
  \/ (GPAProcessor.validateCourse (JS.trim n) (JS.Num (JS.parseFloat_string c)) g = []
      /\ exec (GPAUI.addCourseHandler n c g) st
         = exec (addCourse (mkCourse (JS.trim n) (JS.Num (JS.parseFloat_string c)) g)) st).
Proof.
  unfold GPAUI.addCourseHandler.
  destruct (GPAProcessor.validateCourse (JS.trim n)
              (JS.Num (JS.parseFloat_string c)) g) as [| e errors];
    cbn [List.length Nat.ltb Nat.leb].
  - right. split; reflexivity.
  - left. split; [discriminate | reflexivity].
Qed.

Lemma accepted_session_record n x g :
  GPAProcessor.validateCourse (JS.trim n) (JS.Num x) g = [] ->
  session_record (mkCourse (JS.trim n) (JS.Num x) g).
Proof.
  intros Hok. apply ValidationFacts.accepted_iff in Hok.
  destruct Hok as (Hn & Hc & Hg). rewrite StringFacts.trim_idempotent in Hn.
  repeat split; cbn [name grade credits]; trivial.
  - now rewrite StringFacts.trim_idempotent.
  - right. exists x. split; [reflexivity |].
    cbn [credits_rejected] in Hc. unfold positive_number in *.
    destruct (Prim2SF x) as [s | s | | s m e]; try destruct s; tauto.
Qed.

(** One event keeps both: the storage written through, and the records as
    a session leaves them. *)
Lemma handle_keeps st e :
  written_through st /\ Forall session_record (courses st) ->
  written_through (handle st e) /\ Forall session_record (courses (handle st e)).
Proof.
  intros [Hw Hr]. destruct e as [n c g | index | confirmed | |]; cbn [handle].
  - destruct (submit_cases n c g st) as [[_ ->] | [Hok ->]]; [now split |].
    split; [right; reflexivity |].
    rewrite StoreFacts.exec_addCourse_courses. apply Forall_app. split; [exact Hr |].
    constructor; [now apply accepted_session_record | constructor].
  - split; [right; reflexivity |].
    unfold GPAUI.removeCourseHandler. rewrite StoreFacts.exec_removeCourse_courses.
    apply Forall_forall. intros c Hin. apply splice1_incl in Hin.
    revert c Hin. now apply Forall_forall.
  - destruct confirmed; cbn; [| now split].
    split; [right; reflexivity | constructor].
  - split; [right; reflexivity | exact Hr].
  - unfold GPAUI.pageLoad, constructor. cbn [courses localStorage].
    destruct Hw as [[-> _] | ->]; cbn [loadFromStorage].
    + split; [now left | constructor].
    + unfold JSON_parse. split.
      * right. cbn [courses localStorage]. now rewrite JSON_stringify_idempotent.
      * cbn [courses]. unfold JSON_stringify. apply Forall_forall. intros c Hin.
        apply in_map_iff in Hin. destruct Hin as (c0 & <- & Hin0).
        apply session_record_stringify. revert c0 Hin0. now apply Forall_forall.
Qed.

Lemma fold_handle_keeps events st :
  written_through st /\ Forall session_record (courses st) ->
  written_through (fold_left handle events st)
  /\ Forall session_record (courses (fold_left handle events st)).
Proof.
  revert st. induction events as [| e events IH]; intros st H; [exact H |].
  cbn [fold_left]. apply IH, handle_keeps, H.
Qed.

Lemma session_keeps events :
  written_through (session events)
  /\ Forall session_record (courses (session events)).
Proof.
  apply fold_handle_keeps. split; [left; split; reflexivity | constructor].
Qed.

(** X4: at every point of a session the storage is written through: a new
    data layer constructed over it would hold what [JSON.stringify] and
    [JSON.parse] make of the courses now held, and the item is missing
    only while nothing is held. *)
Theorem session_storage_written_through events :
  loadFromStorage (localStorage (session events))
  = JSON_stringify (courses (session events))
  /\ (localStorage (session events) = None -> courses (session events) = []).
Proof.
  destruct (session_keeps events) as [[[Hnone Hnil] | Hsome] _].
  - rewrite Hnone, Hnil. split; [reflexivity | trivial].
  - rewrite Hsome. split; [reflexivity | discriminate].
Qed.

(** X5: every course a session leaves in the store has a name that is not
    empty and has no white space around it, a grade among the eleven
    tokens, and credits that are a number above zero or, after a reload,
    [null]. *)
Theorem session_records events c :
  In c (courses (session events)) ->
  name c = JS.trim (name c)
  /\ name c <> EmptyString
  /\ In (grade c) tokens
  /\ (credits c = JS.Null \/ exists x, credits c = JS.Num x /\ positive_number x).
Proof.
  intros Hin. destruct (session_keeps events) as [_ Hr].
  exact (proj1 (Forall_forall _ _) Hr c Hin).
Qed.

Lemma stringify_fixed_iff cs :
  Forall session_record cs ->
  (JSON_stringify cs = cs <-> Forall (fun c => credits c <> JS.Num JS.Infinity) cs).
Proof.
  induction 1 as [| c cs Hc _ IH]; [split; [constructor | reflexivity] |].
  unfold JSON_stringify in *. cbn [map]. split.
  - intros Heq. injection Heq as Hhead Htail. constructor; [| now apply IH].
    intros Hinf. destruct c as [n v g]. cbn [name credits grade] in *.
    injection Hhead as Hv. subst v. discriminate Hv.
  - intros Hall. inversion Hall as [| ? ? Hhead Htail]; subst.
    rewrite (proj2 IH Htail). now rewrite session_record_unchanged.
Qed.

(** X6: reloading the page changes nothing exactly when no course held has
    credits of [+Infinity]; such credits come back as [null]. *)
Theorem reload_changes_only_infinite_credits events :
  GPAUI.pageLoad (session events) = session events
  <-> Forall (fun c => credits c <> JS.Num JS.Infinity) (courses (session events)).
Proof.
  destruct (session_keeps events) as [Hw Hr].
  rewrite <- (stringify_fixed_iff _ Hr).
  unfold GPAUI.pageLoad, constructor.
  unfold written_through in Hw.
  destruct (session events) as [cs storage]. cbn [courses localStorage] in *.
  destruct Hw as [[-> ->] | ->]; cbn [loadFromStorage]; unfold JSON_parse.
  - split; reflexivity.
  - split.
    + intros Heq. injection Heq as Heq. exact Heq.
    + intros Heq. rewrite Heq. reflexivity.
Qed.

(** X7: once the storage item exists, the Save button changes nothing:
    every change was already written when it was made. *)
Theorem save_changes_nothing events :
  localStorage (session events) <> None ->
  handle (session events) ClickSave = session events.
Proof.
  intros Hsome. destruct (session_keeps events) as [Hw _].
  unfold written_through in Hw.
  destruct (session events) as [cs storage]. cbn [courses localStorage] in *.
  destruct Hw as [[-> _] | ->]; [congruence | reflexivity].
Qed.

Lemma handle_on_empty st e :
  courses st = [] -> isSubmit e = false -> written_through st ->
  courses (handle st e) = [].
Proof.
  intros Hnil Hno Hw. destruct e as [n c g | index | confirmed | |];
    cbn [handle isSubmit] in *; try discriminate.
  - unfold GPAUI.removeCourseHandler. rewrite StoreFacts.exec_removeCourse_courses, Hnil.
    apply splice1_nil.
  - now destruct confirmed.
  - exact Hnil.
  - unfold GPAUI.pageLoad, constructor. cbn [courses].
    destruct Hw as [[-> _] | ->]; [reflexivity |]. now rewrite Hnil.
Qed.

(** X8: a confirmed Clear All empties the store for good: whatever came
    before, the store stays empty through every removal, save, reload and
    further clear, until a course is submitted; a Clear All that is not
    confirmed changes nothing. *)
Theorem clear_all_lasts before after :
  forallb (fun e => negb (isSubmit e)) after = true ->
  courses (session (before ++ ClickClearAll true :: after)) = []
  /\ (forall st, handle st (ClickClearAll false) = st).
Proof.
  intros Hafter. split; [| reflexivity].
  unfold session. rewrite fold_left_app. cbn [fold_left].
  set (st := fold_left handle before (constructor None)).
  assert (Hst : written_through st /\ Forall session_record (courses st))
    by apply (session_keeps before).
  apply (handle_keeps st (ClickClearAll true)) in Hst.
  assert (Hnil : courses (handle st (ClickClearAll true)) = []) by reflexivity.
  revert Hst Hnil. generalize (handle st (ClickClearAll true)). clear st.
  induction after as [| e after IH]; intros st Hst Hnil; [exact Hnil |].
  cbn [fold_left forallb] in *. apply andb_true_iff in Hafter as [He Hafter].
  apply IH; [exact Hafter | now apply handle_keeps |].
  apply handle_on_empty; [exact Hnil | now apply negb_true_iff | apply Hst].
Qed.

End SessionFacts.

Module HandlerFacts.

Import GPADataLayer.

(** X9: [addCourseHandler] changes all or nothing.  When the trimmed name is
    empty, the parsed credits are not above zero or the grade is not a
    token, the courses and the storage stay exactly as they were;
    otherwise one course is appended, with the trimmed name, the parsed
    credits and the grade, and the new sequence is written to the storage.
    Either way the call completes normally, and validating the name as
    typed would decide the same. *)
Theorem addCourseHandler_all_or_nothing st nameValue creditsValue gradeValue :
  let name := JS.trim nameValue in
  let x := JS.parseFloat_string creditsValue in
  let accepted := name <> EmptyString /\ positive_number x /\ In gradeValue tokens in
  let course := mkCourse name (JS.Num x) gradeValue in
  (accepted ->
   GPAUI.addCourseHandler nameValue creditsValue gradeValue st
   = Normal tt (mkState (courses st ++ [course])
                        (Some (JSON_stringify (courses st ++ [course]))))%list)
  /\ (~ accepted ->
      GPAUI.addCourseHandler nameValue creditsValue gradeValue st = Normal tt st)
  /\ GPAProcessor.validateCourse nameValue (JS.Num x) gradeValue
     = GPAProcessor.validateCourse name (JS.Num x) gradeValue.
Proof.
  intros name x accepted course.
  assert (Hiff : GPAProcessor.validateCourse name (JS.Num x) gradeValue = []
                 <-> accepted).
  { rewrite ValidationFacts.accepted_iff. subst name accepted.
    rewrite StringFacts.trim_idempotent. cbn [credits_rejected].
    unfold positive_number.
    destruct (Prim2SF x) as [s | s | | s m e]; try destruct s; tauto. }
  split; [| split].
  - intros Hacc. apply Hiff in Hacc. unfold GPAUI.addCourseHandler.
    fold name x. rewrite Hacc. reflexivity.
  - intros Hrej. unfold GPAUI.addCourseHandler. fold name x.
    destruct (GPAProcessor.validateCourse name (JS.Num x) gradeValue) eqn:Herr.
    + exfalso. apply Hrej, Hiff. reflexivity.
    + reflexivity.
  - rewrite !ValidationFacts.validateCourse_shape. subst name.
    now rewrite StringFacts.trim_idempotent.
Qed.

End HandlerFacts.

(* ===================================================================== *)
(** ** Labels, escaping and display *)
(* ===================================================================== *)

Module LabelFacts.

Import GPAUI.

Lemma keys_gradeLabels : JSObject.keys gradeLabels = tokens.
Proof. reflexivity. Qed.

Lemma token_label g :
  In g tokens ->
  exists l, getGradeLabel g = Text l
            /\ JSObject.get gradeLabels g = Some l
            /\ l <> "Unknown".
Proof.
  unfold tokens. cbn [In]. intros Hin.
  repeat (destruct Hin as [<- | Hin];
          [eexists; split; [reflexivity | split; [reflexivity | discriminate]] |]).
  contradiction.
Qed.

Lemma token_label_injective g g' :
  In g tokens -> In g' tokens -> getGradeLabel g = getGradeLabel g' -> g = g'.
Proof.
  unfold tokens. cbn [In]. intros Hg Hg'.
  repeat (destruct Hg as [<- | Hg]; [
    repeat (destruct Hg' as [<- | Hg']; [
      first [reflexivity | intros H; discriminate H] |]);
    contradiction |]).
  contradiction.
Qed.

Lemma prototype_key_not_token g :
  In g JSObject.ObjectPrototype_keys -> ~ In g tokens.
Proof.
  unfold JSObject.ObjectPrototype_keys, tokens. cbn [In]. intros Hin.
  repeat (destruct Hin as [<- | Hin]; [intuition discriminate |]).
  contradiction.
Qed.

Lemma existsb_eqb_In key keys :
  existsb (String.eqb key) keys = true <-> In key keys.
Proof.
  rewrite existsb_exists. split.
  - intros (k & Hin & Heq). apply String.eqb_eq in Heq. now subst.
  - intros Hin. exists key. split; [exact Hin | apply String.eqb_refl].
Qed.

(** X10: the label table has the same keys as the grade-point table.  For
    each of the eleven tokens [getGradeLabel] returns its letter, never
    the text Unknown, and different tokens have different letters, so every
    grade that validation accepts is shown with a letter of its own.  For
    a name that objects inherit (such as toString) it returns the
    inherited value, not a text; for every other string it returns the
    text Unknown. *)
Theorem getGradeLabel_cases :
  JSObject.keys gradeLabels = JSObject.keys GPAProcessor.gradePoints
  /\ (forall g, In g tokens ->
        exists l, getGradeLabel g = Text l
                  /\ JSObject.get gradeLabels g = Some l
                  /\ l <> "Unknown")
  /\ (forall g g', In g tokens -> In g' tokens ->
        getGradeLabel g = getGradeLabel g' -> g = g')
  /\ (forall name credits g,
        GPAProcessor.validateCourse name credits g = [] ->
        exists l, getGradeLabel g = Text l /\ l <> "Unknown")
  /\ (forall g, In g JSObject.ObjectPrototype_keys ->
        getGradeLabel g = InheritedValue g
        /\ JSObject.hasOwnProperty GPAProcessor.gradePoints g = false)
  /\ (forall g, ~ In g tokens -> ~ In g JSObject.ObjectPrototype_keys ->
        getGradeLabel g = Text "Unknown").
Proof.
  split; [reflexivity |].
  split; [exact token_label |].
  split; [exact token_label_injective |].
  split; [| split].
  - intros name credits g Hok. apply ValidationFacts.accepted_iff in Hok.
    destruct Hok as (_ & _ & Hg).
    destruct (token_label g Hg) as (l & Hl & _ & Hne). now exists l.
  - intros g Hproto. pose proof (prototype_key_not_token g Hproto) as Hnot.
    split.
    + unfold getGradeLabel, JSObject.getProperty.
      rewrite (proj2 (ObjectFacts.get_None_iff gradeLabels g))
        by now rewrite keys_gradeLabels.
      now rewrite (proj2 (existsb_eqb_In g _) Hproto).
    + apply ObjectFacts.hasOwnProperty_false_iff.
      now rewrite ValidationFacts.keys_gradePoints.
  - intros g Hnot Hproto. unfold getGradeLabel, JSObject.getProperty.
    rewrite (proj2 (ObjectFacts.get_None_iff gradeLabels g))
      by now rewrite keys_gradeLabels.
    destruct (existsb (String.eqb g) JSObject.ObjectPrototype_keys) eqn:Hex;
      [| reflexivity].
    apply existsb_eqb_In in Hex. contradiction.
Qed.

End LabelFacts.

Module EscapeFacts.

Lemma replaceAll_app c by_ s t :
  JS.replaceAll c by_ (s ++ t) = JS.replaceAll c by_ s ++ JS.replaceAll c by_ t.
Proof.
  induction s as [| a s IH]; [reflexivity |].
  cbn [append JS.replaceAll]. rewrite IH.
  destruct (Ascii.eqb a c); [now rewrite StringFacts.append_assoc | reflexivity].
Qed.

Lemma escapeHtml_app s t :
  GPAUI.escapeHtml (s ++ t) = GPAUI.escapeHtml s ++ GPAUI.escapeHtml t.
Proof. unfold GPAUI.escapeHtml. now rewrite !replaceAll_app. Qed.

(** One code unit: the five passes together do what one substitution does;
    the ampersands a pass writes are not touched by the later passes. *)
Lemma escapeHtml_one c :
  GPAUI.escapeHtml (String c EmptyString) = escapeChar c.
Proof.
  unfold escapeChar.
  destruct (Ascii.eqb c "&") eqn:H1; [apply Ascii.eqb_eq in H1; now subst |].
  destruct (Ascii.eqb c "<") eqn:H2; [apply Ascii.eqb_eq in H2; now subst |].
  destruct (Ascii.eqb c ">") eqn:H3; [apply Ascii.eqb_eq in H3; now subst |].
  destruct (Ascii.eqb c JS.quotationMark) eqn:H4;
    [apply Ascii.eqb_eq in H4; now subst |].
  destruct (Ascii.eqb c "'") eqn:H5; [apply Ascii.eqb_eq in H5; now subst |].
  unfold GPAUI.escapeHtml. cbn [JS.replaceAll].
  rewrite H1. cbn [JS.replaceAll]. rewrite H2. cbn [JS.replaceAll].
  rewrite H3. cbn [JS.replaceAll]. rewrite H4. cbn [JS.replaceAll].
  now rewrite H5.
Qed.

Lemma escapeHtml_escapeEach s : GPAUI.escapeHtml s = escapeEach s.
Proof.
  induction s as [| c s IH]; [reflexivity |].
  change (String c s) with (String c EmptyString ++ s).
  rewrite escapeHtml_app, escapeHtml_one, IH. reflexivity.
Qed.

Lemma escapeChar_no_markup c : ForallChars (fun a => ~ isMarkup a) (escapeChar c).
Proof.
  unfold escapeChar, isMarkup.
  destruct (Ascii.eqb c "&") eqn:H1;
    [cbn; repeat split; intros [H | [H | [H | H]]]; discriminate H |].
  destruct (Ascii.eqb c "<") eqn:H2;
    [cbn; repeat split; intros [H | [H | [H | H]]]; discriminate H |].
  destruct (Ascii.eqb c ">") eqn:H3;
    [cbn; repeat split; intros [H | [H | [H | H]]]; discriminate H |].
  destruct (Ascii.eqb c JS.quotationMark) eqn:H4;
    [cbn; repeat split; intros [H | [H | [H | H]]]; discriminate H |].
  destruct (Ascii.eqb c "'") eqn:H5;
    [cbn; repeat split; intros [H | [H | [H | H]]]; discriminate H |].
  cbn [ForallChars]. split; [| exact I].
  apply Ascii.eqb_neq in H2, H3, H4, H5. tauto.
Qed.

Lemma escapeChar_plain c :
  ~ isMarkup c -> c <> "&"%char -> escapeChar c = String c EmptyString.
Proof.
  unfold isMarkup, escapeChar. intros Hm Ha.
  destruct (Ascii.eqb_spec c "&"); [congruence |].
  destruct (Ascii.eqb_spec c "<"); [tauto |].
  destruct (Ascii.eqb_spec c ">"); [tauto |].
  destruct (Ascii.eqb_spec c JS.quotationMark); [tauto |].
  destruct (Ascii.eqb_spec c "'"); [tauto | reflexivity].
Qed.

(** X11: [escapeHtml] is one substitution per code unit, as if the five
    replacements were made at once: the text an earlier replacement writes
    is not replaced again.  Its result has no [<], [>], quotation mark or
    apostrophe; a text without these and without [&] is returned as it is;
    and escaping a concatenation is concatenating the escaped parts. *)
Theorem escapeHtml_one_pass :
  forall s,
    GPAUI.escapeHtml s = escapeEach s
    /\ ForallChars (fun c => ~ isMarkup c) (GPAUI.escapeHtml s)
    /\ (ForallChars (fun c => ~ isMarkup c /\ c <> "&"%char) s -> GPAUI.escapeHtml s = s)
    /\ (forall t, GPAUI.escapeHtml (s ++ t) = GPAUI.escapeHtml s ++ GPAUI.escapeHtml t).
Proof.
  intros s. split; [apply escapeHtml_escapeEach | split; [| split]].
  - rewrite escapeHtml_escapeEach. induction s as [| c s IH]; [exact I |].
    cbn [escapeEach]. apply StringFacts.ForallChars_app. split; [apply escapeChar_no_markup | exact IH].
  - rewrite escapeHtml_escapeEach. induction s as [| c s IH]; [reflexivity |].
    cbn [ForallChars escapeEach]. intros [[Hm Ha] Hrest].
    rewrite escapeChar_plain, IH by assumption. reflexivity.
  - intros t. apply escapeHtml_app.
Qed.

(** The texts of two code units start differently, or the code units are
    the same. *)
Lemma escapeChar_prefix_free a b s t :
  escapeChar a ++ s = escapeChar b ++ t -> a = b /\ s = t.
Proof.
  unfold escapeChar.
  destruct (Ascii.eqb_spec a "&"), (Ascii.eqb_spec b "&");
    [subst; cbn; intros H; injection H; auto | | |].
  all: destruct (Ascii.eqb_spec a "<"), (Ascii.eqb_spec b "<");
    try (subst; cbn; intros H; injection H; intros; subst; auto; congruence).
  all: destruct (Ascii.eqb_spec a ">"), (Ascii.eqb_spec b ">");
    try (subst; cbn; intros H; injection H; intros; subst; auto; congruence).
  all: destruct (Ascii.eqb_spec a JS.quotationMark), (Ascii.eqb_spec b JS.quotationMark);
    try (subst; cbn; intros H; injection H; intros; subst; auto; congruence).
  all: destruct (Ascii.eqb_spec a "'"), (Ascii.eqb_spec b "'");
    try (subst; cbn; intros H; injection H; intros; subst; auto; congruence).
Qed.

Lemma escapeChar_nonempty c s : escapeChar c ++ s <> EmptyString.
Proof.
  unfold escapeChar.
  repeat match goal with |- context [if ?b then _ else _] => destruct b end;
    discriminate.
Qed.

Lemma escapeEach_injective s t : escapeEach s = escapeEach t -> s = t.
Proof.
  revert t. induction s as [| a s IH]; intros [| b t]; cbn [escapeEach]; intros H.
  - reflexivity.
  - symmetry in H. now apply escapeChar_nonempty in H.
  - now apply escapeChar_nonempty in H.
  - apply escapeChar_prefix_free in H. destruct H as [-> H]. f_equal. now apply IH.
Qed.

(** X12: [escapeHtml] loses nothing: two different names are shown as two
    different texts. *)
Theorem escapeHtml_injective s t :
  s <> t -> GPAUI.escapeHtml s <> GPAUI.escapeHtml t.
Proof.
  intros Hne Heq. apply Hne. rewrite !escapeHtml_escapeEach in Heq.
  now apply escapeEach_injective.
Qed.

End EscapeFacts.

Module DisplayFacts.

Lemma string_of_uint_digits d : ForallChars isDigit (NilEmpty.string_of_uint d).
Proof.
  induction d; cbn [NilEmpty.string_of_uint ForallChars];
    try exact I; (split; [discriminate | assumption]).
Qed.

Lemma string_of_uint_nonempty d :
  d <> Decimal.Nil -> NilEmpty.string_of_uint d <> EmptyString.
Proof. destruct d; [congruence | discriminate ..]. Qed.

Lemma decimalDigits_digits n : ForallChars isDigit (JS.decimalDigits n).
Proof. apply string_of_uint_digits. Qed.

Lemma decimalDigits_nonempty n : (1 <= String.length (JS.decimalDigits n))%nat.
Proof.
  unfold JS.decimalDigits.
  assert (H : NilEmpty.string_of_uint (N.to_uint (Z.to_N n)) <> EmptyString).
  { apply string_of_uint_nonempty. destruct (Z.to_N n) as [| p]; [discriminate |].
    apply DecimalPos.Unsigned.to_uint_nonnil. }
  destruct (NilEmpty.string_of_uint (N.to_uint (Z.to_N n))); [congruence |].
  cbn [String.length]. lia.
Qed.

Lemma zeros_digits k : ForallChars isDigit (JS.zeros k).
Proof. induction k as [| k IH]; cbn [JS.zeros ForallChars]; [exact I |]. split; [discriminate | exact IH]. Qed.

Lemma zeros_length k : String.length (JS.zeros k) = k.
Proof. induction k as [| k IH]; cbn [JS.zeros String.length]; [reflexivity | now rewrite IH]. Qed.

(** The two-decimal text of [n] hundredths: digits, a point, two digits. *)
Lemma fixedDigits_shape n :
  exists whole hundredths,
    JS.fixedDigits n 2 = whole ++ "." ++ hundredths
    /\ (1 <= String.length whole)%nat
    /\ String.length hundredths = 2%nat
    /\ ForallChars isDigit whole
    /\ ForallChars isDigit hundredths.
Proof.
  unfold JS.fixedDigits.
  set (m := JS.decimalDigits n).
  set (m' := if (String.length m <=? 2)%nat
             then JS.zeros (2 + 1 - String.length m) ++ m else m).
  assert (Hlen : (3 <= String.length m')%nat).
  { subst m'. pose proof (decimalDigits_nonempty n). fold m in H.
    destruct (Nat.leb_spec (String.length m) 2).
    - rewrite StringFacts.string_length_app, zeros_length. lia.
    - lia. }
  assert (Hdig : ForallChars isDigit m').
  { subst m'. destruct (String.length m <=? 2)%nat.
    - apply StringFacts.ForallChars_app. split; [apply zeros_digits | apply decimalDigits_digits].
    - apply decimalDigits_digits. }
  destruct (StringFacts.substring_cut m' (String.length m' - 2)) as (Hcut & Hl1 & Hl2); [lia |].
  replace (String.length m' - (String.length m' - 2))%nat with 2%nat in * by lia.
  exists (substring 0 (String.length m' - 2) m'), (substring (String.length m' - 2) 2 m').
  rewrite <- Hcut in Hdig. apply StringFacts.ForallChars_app in Hdig.
  repeat split; try tauto; lia.
Qed.

Section ToFixed.

Variable toString_large : float -> string.

Lemma toFixed_shown x :
  shown_with_two_decimals (JS.toFixed toString_large x 2) x.
Proof.
  unfold shown_with_two_decimals, JS.toFixed.
  destruct (Prim2SF x) as [s | s | | s m e]; try destruct s; try reflexivity.
  - intros ->. unfold two_decimal_text.
    destruct (fixedDigits_shape (JS.nearestScaled m e 2))
      as (whole & hundredths & Heq & Hrest).
    exists whole, hundredths. rewrite Heq. split; [reflexivity | exact Hrest].
  - intros ->. unfold two_decimal_text.
    destruct (fixedDigits_shape (JS.nearestScaled m e 2))
      as (whole & hundredths & Heq & Hrest).
    exists whole, hundredths. rewrite Heq. split; [reflexivity | exact Hrest].
Qed.

(** X13: for a list that is not empty, [gpa] and [totalPoints] are always
    texts made by [toFixed(2)], never numbers.  [totalPoints] shows the sum
    of credits times parsed grade, [gpa] shows that sum divided by the sum
    of the credits when this is above zero and 0 otherwise; each is shown
    as NaN or an infinity by name, as 0.00 for a zero, and for a finite
    number below [10^21] in magnitude as a sign (for a negative number
    only), at least one digit, a point and exactly two digits. *)
Theorem calculateGPA_shows_two_decimals cs :
  cs <> [] ->
  let credits := sum_floats (map creditsNumber cs) in
  let points :=
    sum_floats
      (map (fun c => creditsNumber c * JS.parseFloat_string (grade c))%float cs) in
  let average := if JS.gt_zero credits then (points / credits)%float else 0%float in
  exists shownAverage shownPoints,
    GPAProcessor.calculateGPA toString_large cs
    = mkResult (JS.StringValue shownAverage) credits (JS.StringValue shownPoints)
               (List.length cs)
    /\ shown_with_two_decimals shownAverage average
    /\ shown_with_two_decimals shownPoints points.
Proof.
  intros Hne credits points average. unfold GPAProcessor.calculateGPA.
  destruct cs as [| c cs]; [congruence |].
  cbn [List.length Nat.eqb]. rewrite CalculateFacts.fold_accumulate.
  eexists _, _.
  split; [reflexivity |].
  split; apply toFixed_shown.
Qed.

End ToFixed.

Lemma colour_agrees_to_400 :
  forallb (fun k => colour_agrees (Z.of_nat k)) (seq 0 401) = true.
Proof. vm_compute. reflexivity. Qed.

Lemma colour_of_fixedDigits n :
  0 <= n <= 400 ->
  GPAUI.updateGPAColor (JS.StringValue (JS.fixedDigits n 2)) = colourOfHundredths n.
Proof.
  intros Hn. pose proof colour_agrees_to_400 as Hall.
  rewrite forallb_forall in Hall.
  specialize (Hall (Z.to_nat n)). rewrite Z2Nat.id in Hall by lia.
  apply String.eqb_eq, Hall, in_seq. lia.
Qed.

Lemma nearestScaled_nonneg m e f : 0 <= JS.nearestScaled m e f.
Proof.
  unfold JS.nearestScaled. destruct (Z.leb_spec 0 e).
  - apply Z.mul_nonneg_nonneg; [| apply Z.pow_nonneg; lia].
    apply Z.mul_nonneg_nonneg; [lia | apply Z.pow_nonneg; lia].
  - assert (0 < 2 ^ (- e)) by (apply Z.pow_pos_nonneg; lia).
    apply Z.div_pos; [| lia].
    assert (0 <= Z.pos m * 10 ^ Z.of_nat f)
      by (apply Z.mul_nonneg_nonneg; [lia | apply Z.pow_nonneg; lia]).
    lia.
Qed.

Lemma below_1e21 m e :
  JS.nearestScaled m e 2 <= 400 -> JS.atLeast1e21 m e = false.
Proof.
  unfold JS.nearestScaled, JS.atLeast1e21. change (10 ^ Z.of_nat 2) with 100.
  destruct (Z.leb_spec 0 e) as [He | He]; intros Hn; apply Z.leb_gt.
  - assert (0 < 2 ^ e) by (apply Z.pow_pos_nonneg; lia).
    change (10 ^ 21) with 1000000000000000000000. nia.
  - assert (Hd : 0 < 2 ^ (- e)) by (apply Z.pow_pos_nonneg; lia).
    set (d := 2 ^ (- e)) in *.
    assert (Hlt : 2 * (Z.pos m * 100) + d < 2 * d * Z.succ ((2 * (Z.pos m * 100) + d) / (2 * d)))
      by (apply Z.mul_succ_div_gt; lia).
    change (10 ^ 21) with 1000000000000000000000. nia.
Qed.

Section Colour.

Variable toString_large : float -> string.

(** X14: the colour follows the GPA as it is shown.  For a GPA above zero
    shown as [n] hundredths, up to 4.00, the class is excellent from 3.70,
    good from 3.00, average from 2.00 and poor below; the number 0 of an
    empty list, a GPA shown as 0.00 and one shown as NaN are poor. *)
Theorem updateGPAColor_thresholds :
  (forall x m e,
      Prim2SF x = S754_finite false m e ->
      JS.nearestScaled m e 2 <= 400 ->
      JS.toFixed toString_large x 2 = JS.fixedDigits (JS.nearestScaled m e 2) 2
      /\ GPAUI.updateGPAColor (JS.StringValue (JS.toFixed toString_large x 2))
         = colourOfHundredths (JS.nearestScaled m e 2))
  /\ (forall n, 0 <= n <= 400 ->
        GPAUI.updateGPAColor (JS.StringValue (JS.fixedDigits n 2))
        = if 370 <=? n then "gpa-value excellent"
          else if 300 <=? n then "gpa-value good"
          else if 200 <=? n then "gpa-value average"
          else "gpa-value poor")
  /\ GPAUI.updateGPAColor (gpa (GPAProcessor.calculateGPA toString_large []))
     = "gpa-value poor"
  /\ GPAUI.updateGPAColor (JS.StringValue (JS.toFixed toString_large 0 2))
     = "gpa-value poor"
  /\ GPAUI.updateGPAColor (JS.StringValue (JS.toFixed toString_large JS.NaN 2))
     = "gpa-value poor".
Proof.
  split; [| split; [| repeat split; reflexivity]].
  - intros x m e Hx Hn.
    assert (Hfix : JS.toFixed toString_large x 2
                   = JS.fixedDigits (JS.nearestScaled m e 2) 2).
    { unfold JS.toFixed. rewrite Hx, (below_1e21 m e Hn). reflexivity. }
    split; [exact Hfix |]. rewrite Hfix. apply colour_of_fixedDigits.
    split; [apply nearestScaled_nonneg | exact Hn].
  - intros n Hn. now rewrite colour_of_fixedDigits.
Qed.

End Colour.

End DisplayFacts.

(* ===================================================================== *)
(** ** Credits that are not finite numbers *)
(* ===================================================================== *)

Module UnreadableFacts.

Lemma add_nan_l x : (JS.NaN + x)%float = JS.NaN.
Proof. apply Prim2SF_inj. rewrite add_spec. reflexivity. Qed.

Lemma add_nan_r x : (x + JS.NaN)%float = JS.NaN.
Proof.
  apply Prim2SF_inj. rewrite add_spec.
  change (Prim2SF JS.NaN) with S754_nan. now destruct (Prim2SF x).
Qed.

Lemma mul_nan_l x : (JS.NaN * x)%float = JS.NaN.
Proof. apply Prim2SF_inj. rewrite mul_spec. reflexivity. Qed.

Lemma fold_add_nan xs : fold_left PrimFloat.add xs JS.NaN = JS.NaN.
Proof.
  induction xs as [| x xs IH]; [reflexivity |].
  cbn [fold_left]. now rewrite add_nan_l.
Qed.

Lemma fold_add_with_nan xs acc :
  In JS.NaN xs -> fold_left PrimFloat.add xs acc = JS.NaN.
Proof.
  revert acc. induction xs as [| x xs IH]; intros acc Hin; [contradiction |].
  cbn [fold_left]. destruct Hin as [-> | Hin].
  - rewrite add_nan_r. apply fold_add_nan.
  - now apply IH.
Qed.

Lemma creditsNumber_unreadable c :
  credits_unreadable c -> creditsNumber c = JS.NaN.
Proof. unfold creditsNumber. now intros [-> | ->]. Qed.

Section Calculate.

Variable toString_large : float -> string.

(** X15: one course whose credits cannot be read (they are [null], as after
    reloading credits of Infinity, or NaN) decides the whole result,
    whatever the other courses and the grades are: [totalCredits] is NaN,
    [totalPoints] is shown as NaN and [gpa] as 0.00. *)
Theorem calculateGPA_unreadable_credits cs :
  Exists credits_unreadable cs ->
  GPAProcessor.calculateGPA toString_large cs
  = mkResult (JS.StringValue "0.00") JS.NaN (JS.StringValue "NaN") (List.length cs).
Proof.
  intros Hex. apply Exists_exists in Hex. destruct Hex as (c & Hin & Hc).
  unfold GPAProcessor.calculateGPA.
  destruct cs as [| c0 cs]; [contradiction |].
  cbn [List.length Nat.eqb]. rewrite CalculateFacts.fold_accumulate.
  rewrite (fold_add_with_nan (map creditsNumber (c0 :: cs))).
  2: { apply in_map_iff. exists c. split; [now apply creditsNumber_unreadable | exact Hin]. }
  rewrite (fold_add_with_nan
             (map (fun c => creditsNumber c * JS.parseFloat_string (grade c))%float
                  (c0 :: cs))).
  2: { apply in_map_iff. exists c. split; [| exact Hin].
       rewrite creditsNumber_unreadable by exact Hc. apply mul_nan_l. }
  reflexivity.
Qed.

(** X17: [calculateGPA] reads the credits and the grade of each course and
    nothing else: two sequences that agree on these, course by course,
    have the same result, whatever the names are. *)
Theorem calculateGPA_ignores_names cs cs' :
  Forall2 (fun c c' => credits c = credits c' /\ grade c = grade c') cs cs' ->
  GPAProcessor.calculateGPA toString_large cs
  = GPAProcessor.calculateGPA toString_large cs'.
Proof.
  intros Hsame.
  assert (Hlen : List.length cs = List.length cs') by now apply Forall2_length in Hsame.
  assert (Hfold : forall acc, fold_left GPAProcessor.accumulate cs acc
                              = fold_left GPAProcessor.accumulate cs' acc).
  { induction Hsame as [| c c' cs cs' [Hc Hg] _ IH]; intros acc; [reflexivity |].
    cbn [fold_left]. cbn [List.length] in Hlen.
    replace (GPAProcessor.accumulate acc c') with (GPAProcessor.accumulate acc c)
      by (unfold GPAProcessor.accumulate; now rewrite Hc, Hg).
    apply IH. lia. }
  unfold GPAProcessor.calculateGPA. now rewrite Hlen, Hfold.
Qed.

End Calculate.

End UnreadableFacts.

Module InfinityFacts.

Lemma shr_1_nonneg mrs : 0 <= shr_m mrs -> 0 <= shr_m (shr_1 mrs).
Proof.
  destruct mrs as [m r s]. cbn [shr_m]. intros Hm.
  destruct m as [| p | p]; [cbn; lia | | lia].
  destruct p; cbn; lia.
Qed.

Lemma shr_iter_nonneg k mrs :
  0 <= shr_m mrs -> 0 <= shr_m (Nat.iter k shr_1 mrs).
Proof.
  intros Hm. induction k as [| k IH]; [exact Hm |].
  cbn [Nat.iter]. now apply shr_1_nonneg.
Qed.

Lemma shr_fexp_nonneg m e l :
  0 <= m -> 0 <= shr_m (fst (shr_fexp prec emax m e l)).
Proof.
  intros Hm. unfold shr_fexp, shr.
  destruct (fexp prec emax (Zdigits2 m + e) - e) as [| n | n]; cbn [fst].
  - now rewrite Binary64Facts.shr_m_of_loc.
  - rewrite Binary64Facts.iter_pos_nat. apply shr_iter_nonneg.
    now rewrite Binary64Facts.shr_m_of_loc.
  - now rewrite Binary64Facts.shr_m_of_loc.
Qed.

Lemma round_nearest_even_nonneg m l : 0 <= m -> 0 <= round_nearest_even m l.
Proof.
  intros Hm. destruct l as [| []]; cbn [round_nearest_even]; try lia.
  destruct (Z.even m); lia.
Qed.

(** Rounding a positive mantissa gives [+0], a positive number or
    [+Infinity], at any exponent. *)
Lemma binary_round_aux_not_below_zero p e l :
  sf_not_below_zero (binary_round_aux prec emax false (Zpos p) e l).
Proof.
  unfold binary_round_aux.
  pose proof (shr_fexp_nonneg (Zpos p) e l) as H1.
  destruct (shr_fexp prec emax (Zpos p) e l) as [mrs1 e1]. cbn [fst] in H1.
  pose proof (round_nearest_even_nonneg (shr_m mrs1) (loc_of_shr_record mrs1)) as H2.
  pose proof (shr_fexp_nonneg (round_nearest_even (shr_m mrs1) (loc_of_shr_record mrs1))
                e1 loc_Exact) as H3.
  destruct (shr_fexp prec emax (round_nearest_even (shr_m mrs1) (loc_of_shr_record mrs1))
              e1 loc_Exact) as [mrs2 e2].
  cbn [fst] in H3.
  destruct (shr_m mrs2) as [| q | q].
  - exact I.
  - now destruct (e2 <=? emax - prec).
  - assert (0 <= Z.neg q) by (apply H3, H2, H1; lia). lia.
Qed.

(** Credits above zero times a grade-point value that is zero or above. *)
Lemma SF64mul_classes c g :
  sf_positive c ->
  match g with S754_zero false | S754_finite false _ _ => True | _ => False end ->
  sf_not_below_zero (SF64mul c g)
  /\ (c = S754_infinity false -> sf_unbounded (SF64mul c g)).
Proof.
  destruct c as [sc | sc | | sc mc ec]; try destruct sc; cbn [sf_positive]; try tauto;
    destruct g as [sg | sg | | sg mg eg]; try destruct sg; try tauto; intros _ _.
  all: try (split; [exact I | first [intros _; exact I | discriminate]]).
  split; [| discriminate]. unfold SF64mul, SFmul. cbn [xorb].
  apply binary_round_aux_not_below_zero.
Qed.

Lemma SF64add_classes x y :
  valid_binary x = true -> valid_binary y = true ->
  sf_not_below_zero x -> sf_not_below_zero y ->
  sf_not_below_zero (SF64add x y)
  /\ (sf_unbounded x \/ sf_unbounded y -> sf_unbounded (SF64add x y)).
Proof.
  intros Hx Hy.
  destruct x as [sx | sx | | sx mx ex]; try destruct sx; cbn [sf_not_below_zero]; try tauto;
    destruct y as [sy | sy | | sy my ey]; try destruct sy;
    cbn [sf_not_below_zero]; try tauto; intros _ _;
    try (split; [exact I | cbn; tauto]).
  pose proof (Binary64Facts.SF64add_positive _ _ Hx Hy I I) as Hpos.
  split; [| cbn; tauto].
  destruct (SF64add (S754_finite false mx ex) (S754_finite false my ey))
    as [s | s | | s m e]; try destruct s; cbn in *; tauto.
Qed.

Lemma fold_add_classes xs acc :
  sf_not_below_zero (Prim2SF acc) ->
  Forall (fun x => sf_not_below_zero (Prim2SF x)) xs ->
  sf_not_below_zero (Prim2SF (fold_left PrimFloat.add xs acc))
  /\ (sf_unbounded (Prim2SF acc) \/ Exists (fun x => sf_unbounded (Prim2SF x)) xs ->
      sf_unbounded (Prim2SF (fold_left PrimFloat.add xs acc))).
Proof.
  revert acc. induction xs as [| x xs IH]; intros acc Hacc Hxs; cbn [fold_left].
  - split; [exact Hacc |]. intros [H | H]; [exact H | inversion H].
  - inversion Hxs as [| ? ? Hx Hrest]; subst.
    assert (Hstep : sf_not_below_zero (Prim2SF (acc + x))
                    /\ (sf_unbounded (Prim2SF acc) \/ sf_unbounded (Prim2SF x) ->
                        sf_unbounded (Prim2SF (acc + x)))).
    { rewrite add_spec. apply SF64add_classes; trivial; apply Prim2SF_valid. }
    destruct Hstep as [Hn Hu]. destruct (IH (acc + x)%float Hn Hrest) as [IHn IHu].
    split; [exact IHn |]. intros [H | H].
    + apply IHu. left. apply Hu. now left.
    + inversion H as [? ? Hhead | ? ? Htail]; subst.
      * apply IHu. left. apply Hu. now right.
      * apply IHu. now right.
Qed.

Lemma token_value_class g :
  In g tokens ->
  match Prim2SF (JS.parseFloat_string g) with
  | S754_zero false | S754_finite false _ _ => True
  | _ => False
  end.
Proof.
  unfold tokens. cbn [In]. intros Hin.
  repeat (destruct Hin as [<- | Hin]; [vm_compute; exact I |]).
  contradiction.
Qed.

Lemma positive_not_below_zero x : sf_positive x -> sf_not_below_zero x.
Proof. destruct x as [s | s | | s m e]; try destruct s; cbn; tauto. Qed.

Section Calculate.

Variable toString_large : float -> string.

(** X16: credits of [+Infinity] pass validation, and then no average is
    shown: for courses with credits above zero and grades from the token
    set, one of them with credits [+Infinity], [totalCredits] is Infinity,
    [gpa] is shown as NaN, and [totalPoints] as Infinity or as NaN. *)
Theorem calculateGPA_infinite_credits cs :
  Forall credits_above_zero cs ->
  Forall (fun c => In (grade c) tokens) cs ->
  Exists (fun c => credits c = JS.Num JS.Infinity) cs ->
  exists points,
    GPAProcessor.calculateGPA toString_large cs
    = mkResult (JS.StringValue "NaN") JS.Infinity (JS.StringValue points)
               (List.length cs)
    /\ (points = "Infinity" \/ points = "NaN").
Proof.
  intros Hpos Htok Hinf.
  assert (Hne : cs <> []) by (intros ->; inversion Hinf).
  destruct (CalculateFacts.credits_above_zero_read cs Hpos) as [_ Hall].
  (* the total of the credits *)
  assert (Htc : sum_floats (map creditsNumber cs) = JS.Infinity).
  { pose proof (SumFacts.sum_floats_positive (map creditsNumber cs)) as Hp.
    assert (Hp' : positive_number (sum_floats (map creditsNumber cs))).
    { apply Hp; [destruct cs; [congruence | discriminate] | exact Hall]. }
    destruct (fold_add_classes (map creditsNumber cs) 0%float I) as [_ Hu].
    { apply Forall_forall. intros x Hx.
      apply positive_not_below_zero.
      exact (proj1 (Forall_forall _ _) Hall x Hx). }
    assert (Hub : sf_unbounded (Prim2SF (sum_floats (map creditsNumber cs)))).
    { apply Hu. right. apply Exists_exists. apply Exists_exists in Hinf.
      destruct Hinf as (c & Hin & Hc). exists (creditsNumber c).
      split; [now apply in_map |]. unfold creditsNumber. now rewrite Hc. }
    apply Prim2SF_inj. unfold positive_number in Hp'.
    destruct (Prim2SF (sum_floats (map creditsNumber cs))) as [s | s | | s m e];
      try destruct s; cbn in *; try tauto. }
  (* the total of the points *)
  set (points := fun c => (creditsNumber c * JS.parseFloat_string (grade c))%float).
  assert (Hclass : forall c, In c cs ->
             sf_not_below_zero (Prim2SF (points c))
             /\ (credits c = JS.Num JS.Infinity -> sf_unbounded (Prim2SF (points c)))).
  { intros c Hin. unfold points. rewrite mul_spec.
    assert (Hc : sf_positive (Prim2SF (creditsNumber c))).
    { apply (proj1 (Forall_forall _ _) Hall). now apply in_map. }
    assert (Hg : In (grade c) tokens) by exact (proj1 (Forall_forall _ _) Htok c Hin).
    destruct (SF64mul_classes _ _ Hc (token_value_class _ Hg)) as [Hn Hu].
    split; [exact Hn |]. intros Hcred. apply Hu.
    unfold creditsNumber. now rewrite Hcred. }
  assert (Htp : sf_unbounded (Prim2SF (fold_left PrimFloat.add (map points cs) 0%float))).
  { destruct (fold_add_classes (map points cs) 0%float I) as [_ Hu].
    - apply Forall_forall. intros x Hx. apply in_map_iff in Hx.
      destruct Hx as (c & <- & Hin). now apply Hclass.
    - apply Hu. right. apply Exists_exists. apply Exists_exists in Hinf.
      destruct Hinf as (c & Hin & Hc). exists (points c).
      split; [now apply in_map | now apply Hclass]. }
  unfold GPAProcessor.calculateGPA. destruct cs as [| c0 cs]; [congruence |].
  cbn [List.length Nat.eqb]. rewrite CalculateFacts.fold_accumulate.
  fold points. unfold sum_floats in Htc. rewrite Htc.
  set (tp := fold_left PrimFloat.add (map points (c0 :: cs)) 0%float) in *.
  assert (Hgpa : JS.toFixed toString_large (tp / JS.Infinity) 2 = "NaN").
  { unfold JS.toFixed. rewrite div_spec.
    destruct (Prim2SF tp) as [s | s | | s m e]; try destruct s; cbn in Htp; try tauto;
      reflexivity. }
  change (JS.gt_zero JS.Infinity) with true. cbv iota. rewrite Hgpa.
  exists (JS.toFixed toString_large tp 2). split; [reflexivity |].
  unfold JS.toFixed.
  destruct (Prim2SF tp) as [s | s | | s m e]; try destruct s; cbn in Htp; try tauto.
Qed.

End Calculate.

End InfinityFacts.

(* ===================================================================== *)
(** ** These theorems at concrete inputs *)
(* ===================================================================== *)

(** Index 1 on a store of three courses. *)
Lemma removeCourse_middle_of_three :
  0 <= 1 < Z.of_nat (List.length (GPADataLayer.courses
                                    (GPADataLayer.mkState [cs101; math201; phys150] None)))
  /\ exists cs',
      GPADataLayer.removeCourse 1 (GPADataLayer.mkState [cs101; math201; phys150] None)
      = GPADataLayer.Normal tt
          (GPADataLayer.mkState cs' (Some (GPADataLayer.JSON_stringify cs')))
      /\ nth_error cs' 0 = Some cs101
      /\ nth_error cs' 1 = Some phys150
      /\ List.length cs' = 2%nat.
Proof.
  assert (H : 0 <= 1 < Z.of_nat (List.length
                (GPADataLayer.courses
                   (GPADataLayer.mkState [cs101; math201; phys150] None))))
    by (cbn; lia).
  split; [exact H |].
  destruct (RemovalFacts.removeCourse_in_range _ 1 H)
    as (cs' & Hrun & Hlen & Hbefore & Hafter).
  exists cs'. split; [exact Hrun | split; [| split]].
  - rewrite Hbefore by (cbn; lia). reflexivity.
  - rewrite Hafter by (cbn; lia). reflexivity.
  - exact Hlen.
Defined.

(** Index -5 on a store of two courses. *)
Lemma removeCourse_far_below :
  -5 < - Z.of_nat (List.length (GPADataLayer.courses
                                  (GPADataLayer.mkState [cs101; math201] None)))
  /\ GPADataLayer.removeCourse (-5) (GPADataLayer.mkState [cs101; math201] None)
     = GPADataLayer.Normal tt (GPADataLayer.mkState [math201] (Some [math201])).
Proof.
  assert (H : -5 < - Z.of_nat (List.length
                (GPADataLayer.courses (GPADataLayer.mkState [cs101; math201] None))))
    by (cbn; lia).
  split; [exact H |].
  exact (proj1 (RemovalFacts.removeCourse_below_minus_length
                  (GPADataLayer.mkState [cs101; math201] None) (-5) H)).
Defined.

(** One course submitted with blanks around its name. *)
Lemma session_records_after_one_submission :
  In cs101 (GPADataLayer.courses (session [SubmitCourse " CS101 " "3" "4.0"]))
  /\ name cs101 = JS.trim (name cs101)
  /\ name cs101 <> EmptyString
  /\ In (grade cs101) tokens
  /\ (credits cs101 = JS.Null
      \/ exists x, credits cs101 = JS.Num x /\ positive_number x).
Proof.
  assert (H : In cs101 (GPADataLayer.courses
                          (session [SubmitCourse " CS101 " "3" "4.0"])))
    by (left; vm_compute; reflexivity).
  split; [exact H |].
  exact (SessionFacts.session_records [SubmitCourse " CS101 " "3" "4.0"] cs101 H).
Defined.

(** Save after one submission. *)
Lemma save_after_one_submission :
  GPADataLayer.localStorage (session [SubmitCourse " CS101 " "3" "4.0"]) <> None
  /\ handle (session [SubmitCourse " CS101 " "3" "4.0"]) ClickSave
     = session [SubmitCourse " CS101 " "3" "4.0"].
Proof.
  assert (H : GPADataLayer.localStorage (session [SubmitCourse " CS101 " "3" "4.0"])
              <> None) by (vm_compute; discriminate).
  split; [exact H |].
  exact (SessionFacts.save_changes_nothing [SubmitCourse " CS101 " "3" "4.0"] H).
Defined.

(** Clear All after a submission, followed by a removal, a reload and a
    save. *)
Lemma clear_all_then_other_events :
  forallb (fun e => negb (isSubmit e)) [ClickRemove 0; Reload; ClickSave] = true
  /\ GPADataLayer.courses
       (session ([SubmitCourse " CS101 " "3" "4.0"]
                 ++ ClickClearAll true :: [ClickRemove 0; Reload; ClickSave]))
     = [].
Proof.
  assert (H : forallb (fun e => negb (isSubmit e)) [ClickRemove 0; Reload; ClickSave]
              = true) by reflexivity.
  split; [exact H |].
  exact (proj1 (SessionFacts.clear_all_lasts [SubmitCourse " CS101 " "3" "4.0"]
                  [ClickRemove 0; Reload; ClickSave] H)).
Defined.

(** A submission that is accepted, on an empty store. *)
Lemma addCourseHandler_accepts_cs101 :
  (JS.trim " CS101 " <> EmptyString
   /\ positive_number (JS.parseFloat_string "3") /\ In "4.0" tokens)
  /\ GPAUI.addCourseHandler " CS101 " "3" "4.0" (GPADataLayer.constructor None)
     = GPADataLayer.Normal tt (GPADataLayer.mkState [cs101] (Some [cs101])).
Proof.
  assert (H : JS.trim " CS101 " <> EmptyString
              /\ positive_number (JS.parseFloat_string "3") /\ In "4.0" tokens).
  { split; [vm_compute; discriminate | split; [exact I | cbn; tauto]]. }
  split; [exact H |].
  exact (proj1 (HandlerFacts.addCourseHandler_all_or_nothing
                  (GPADataLayer.constructor None) " CS101 " "3" "4.0") H).
Defined.

(** A name with a tag in it, and the same name already escaped. *)
Lemma escapeHtml_tells_apart :
  "a<b" <> "a&lt;b"
  /\ GPAUI.escapeHtml "a<b" <> GPAUI.escapeHtml "a&lt;b".
Proof.
  assert (H : "a<b" <> "a&lt;b") by discriminate.
  split; [exact H |].
  exact (EscapeFacts.escapeHtml_injective "a<b" "a&lt;b" H).
Defined.

(** Two courses. *)
Lemma calculateGPA_shows_cs101_math201 :
  [cs101; math201] <> []
  /\ exists shownAverage shownPoints,
      GPAProcessor.calculateGPA no_large_numbers [cs101; math201]
      = mkResult (JS.StringValue shownAverage) 7 (JS.StringValue shownPoints) 2
      /\ shown_with_two_decimals shownAverage (26.8 / 7)
      /\ shown_with_two_decimals shownPoints 26.8.
Proof.
  assert (H : [cs101; math201] <> []) by discriminate.
  split; [exact H |].
  exact (DisplayFacts.calculateGPA_shows_two_decimals no_large_numbers _ H).
Defined.

(** A GPA of 3.5. *)
Lemma updateGPAColor_of_3_5 :
  Prim2SF 3.5 = S754_finite false 7881299347898368 (-51)
  /\ JS.nearestScaled 7881299347898368 (-51) 2 <= 400
  /\ GPAUI.updateGPAColor (JS.StringValue (JS.toFixed no_large_numbers 3.5 2))
     = colourOfHundredths (JS.nearestScaled 7881299347898368 (-51) 2).
Proof.
  assert (H1 : Prim2SF 3.5 = S754_finite false 7881299347898368 (-51))
    by reflexivity.
  assert (H2 : JS.nearestScaled 7881299347898368 (-51) 2 <= 400)
    by (vm_compute; discriminate).
  split; [exact H1 | split; [exact H2 |]].
  exact (proj2 (proj1 (DisplayFacts.updateGPAColor_thresholds no_large_numbers)
                  3.5%float 7881299347898368%positive (-51) H1 H2)).
Defined.

(** A course whose credits came back as [null]. *)
Lemma calculateGPA_with_null_credits :
  Exists credits_unreadable [cs101; mkCourse "MATH201" JS.Null "3.7"]
  /\ GPAProcessor.calculateGPA no_large_numbers
       [cs101; mkCourse "MATH201" JS.Null "3.7"]
     = mkResult (JS.StringValue "0.00") JS.NaN (JS.StringValue "NaN") 2.
Proof.
  assert (H : Exists credits_unreadable [cs101; mkCourse "MATH201" JS.Null "3.7"])
    by (right; left; left; reflexivity).
  split; [exact H |].
  exact (UnreadableFacts.calculateGPA_unreadable_credits no_large_numbers _ H).
Defined.

(** A course with credits of Infinity. *)
Lemma calculateGPA_with_infinite_credits :
  Forall credits_above_zero [cs101; mkCourse "MATH201" (JS.Num JS.Infinity) "3.7"]
  /\ Forall (fun c => In (grade c) tokens)
            [cs101; mkCourse "MATH201" (JS.Num JS.Infinity) "3.7"]
  /\ Exists (fun c => credits c = JS.Num JS.Infinity)
            [cs101; mkCourse "MATH201" (JS.Num JS.Infinity) "3.7"]
  /\ exists points,
      GPAProcessor.calculateGPA no_large_numbers
        [cs101; mkCourse "MATH201" (JS.Num JS.Infinity) "3.7"]
      = mkResult (JS.StringValue "NaN") JS.Infinity (JS.StringValue points) 2
      /\ (points = "Infinity" \/ points = "NaN").
Proof.
  assert (H1 : Forall credits_above_zero
                 [cs101; mkCourse "MATH201" (JS.Num JS.Infinity) "3.7"])
    by (repeat constructor; eexists; (split; [reflexivity | exact I])).
  assert (H2 : Forall (fun c => In (grade c) tokens)
                 [cs101; mkCourse "MATH201" (JS.Num JS.Infinity) "3.7"])
    by (repeat constructor; cbn; tauto).
  assert (H3 : Exists (fun c => credits c = JS.Num JS.Infinity)
                 [cs101; mkCourse "MATH201" (JS.Num JS.Infinity) "3.7"])
    by (right; left; reflexivity).
  split; [exact H1 | split; [exact H2 | split; [exact H3 |]]].
  exact (InfinityFacts.calculateGPA_infinite_credits no_large_numbers _ H1 H2 H3).
Defined.

(** The first example course under another name. *)
Lemma calculateGPA_renamed_course :
  Forall2 (fun c c' => credits c = credits c' /\ grade c = grade c')
          [cs101] [mkCourse "Algorithms" (JS.Num 3) "4.0"]
  /\ GPAProcessor.calculateGPA no_large_numbers [cs101]
     = GPAProcessor.calculateGPA no_large_numbers
         [mkCourse "Algorithms" (JS.Num 3) "4.0"].
Proof.
  assert (H : Forall2 (fun c c' => credits c = credits c' /\ grade c = grade c')
                      [cs101] [mkCourse "Algorithms" (JS.Num 3) "4.0"])
    by (repeat constructor).
  split; [exact H |].
  exact (UnreadableFacts.calculateGPA_ignores_names no_large_numbers _ _ H).
Defined.
